(** * mcp_gcal: the tool server of [src/mcp_gcal/server.py]

    A shallow embedding of the credential acquisition routine and of the five
    tools of the server, followed by the properties of the specification that
    are settled against it.

    The Python code talks to the outside through library calls (the process
    environment, the file system, the OAuth libraries, the calendar client,
    [requests], the clock and the zone database).  Everything on the other
    side of such a call is a field of a [World]; every call that touches a
    file or the network is recorded, in program order, in the [trace] of the
    state that the code threads. *)

From Stdlib Require Import ZArith String Ascii List Bool Lia DecimalString.
From Stdlib Require Import Floats.SpecFloat.
From stdpp Require Import base option gmap strings.

Set Warnings "-register-all".

Local Open Scope Z_scope.
Local Open Scope string_scope.

(** ** Python values *)

Module Py.

(** [float] is IEEE binary64; the operations are those of [SpecFloat]. *)
Definition prec : Z := 53.
Definition emax : Z := 1024.
Abbreviation float := spec_float.

Definition float_of_int (n : Z) : float := binary_normalize prec emax n 0 false.
Definition float_div (x y : float) : float := SFdiv prec emax x y.
Definition float_neg (x : float) : float := SFopp x.
(** [x == y] on floats. *)
Definition float_eq (x y : float) : bool := SFeqb x y.

(** The values the tools receive from parsed JSON and hand back to the
    protocol runtime.  A [dict] keeps its items in insertion order. *)
Inductive val : Type :=
| None_
| Bool (b : bool)
| Int (n : Z)
| Float (f : float)
| Str (s : string)
| List (l : list val)
| Dict (d : list (string * val)).

(** [type(v).__name__] *)
Definition type_name (v : val) : string :=
  match v with
  | None_ => "NoneType"
  | Bool _ => "bool"
  | Int _ => "int"
  | Float _ => "float"
  | Str _ => "str"
  | List _ => "list"
  | Dict _ => "dict"
  end.

(** Truth value testing, as [if v:] and [v and ...] do it. *)
Definition truthy (v : val) : bool :=
  match v with
  | None_ => false
  | Bool b => b
  | Int n => negb (Z.eqb n 0)
  | Float f => negb (float_eq f (S754_zero false))
  | Str s => negb (String.eqb s "")
  | List l => match l with [] => false | _ => true end
  | Dict d => match d with [] => false | _ => true end
  end.

Fixpoint dict_lookup (k : string) (d : list (string * val)) : option val :=
  match d with
  | [] => None
  | (k', v) :: d' => if String.eqb k k' then Some v else dict_lookup k d'
  end.

(** [str(n)] for an [int]. *)
Definition str_of_int (n : Z) : string := NilZero.string_of_int (Z.to_int n).

Definition dquote : string := String (ascii_of_nat 34) EmptyString.
Definition backslash : string := String (ascii_of_nat 92) EmptyString.

Fixpoint contains_char (c : ascii) (s : string) : bool :=
  match s with
  | EmptyString => false
  | String c' s' => Ascii.eqb c c' || contains_char c s'
  end.

Fixpoint repr_body (q : ascii) (s : string) : string :=
  match s with
  | EmptyString => EmptyString
  | String c s' =>
      (if Ascii.eqb c q || Ascii.eqb c (ascii_of_nat 92)
       then backslash +:+ String c EmptyString
       else if Ascii.eqb c (ascii_of_nat 10) then backslash +:+ "n"
       else if Ascii.eqb c (ascii_of_nat 13) then backslash +:+ "r"
       else if Ascii.eqb c (ascii_of_nat 9) then backslash +:+ "t"
       else String c EmptyString) +:+ repr_body q s'
  end.

(** [repr(s)] for a [str] of printable ASCII: single quotes, unless the
    text holds a single quote and no double quote. *)
Definition repr_str (s : string) : string :=
  let q := if contains_char "'" s && negb (contains_char (ascii_of_nat 34) s)
           then ascii_of_nat 34 else "'"%char in
  String q EmptyString +:+ repr_body q s +:+ String q EmptyString.

(** An exception instance: its class and what [str(error)] gives.  Every
    class that occurs is a subclass of [Exception], so an
    [except Exception] clause catches each of them. *)
Record exn : Type := Exn { exc_class : string; exc_str : string }.

(** [KeyError(key)]: [str] of a [KeyError] is the [repr] of its argument. *)
Definition KeyError (key : string) : exn := Exn "KeyError" (repr_str key).
Definition AttributeError (v : val) (attr : string) : exn :=
  Exn "AttributeError"
      ("'" +:+ type_name v +:+ "' object has no attribute '" +:+ attr +:+ "'").
Definition TypeError (msg : string) : exn := Exn "TypeError" msg.
Definition IndexError (msg : string) : exn := Exn "IndexError" msg.
Definition FileNotFoundError (path : string) : exn :=
  Exn "FileNotFoundError"
      ("[Errno 2] No such file or directory: " +:+ repr_str path).

Definition is_KeyError (e : exn) : bool := String.eqb (exc_class e) "KeyError".

End Py.

(** ** The outside world, the state and the effects *)

(** What the code reads of a [google.oauth2.credentials.Credentials]
    object: the [valid] and [expired] properties and the [refresh_token]
    attribute, as they stand when the code looks at them. *)
Record Credentials : Type := {
  token : option string;
  refresh_token : option string;
  valid : bool;
  expired : bool
}.

(** An [InstalledAppFlow], made from a client-secret descriptor. *)
Record Flow : Type := { client_config : string }.

(** A [requests.Response]: the status code, and what [.json()] does. *)
Record Response : Type := {
  status_code : Z;
  json : Py.exn + Py.val
}.

(** The arguments of [service.events().list(...)]. *)
Record EventsListRequest : Type := {
  calendarId : string;
  timeMin : string;
  maxResults : Z;
  singleEvents : bool;
  orderBy : string
}.

(** A point on the time line; only its identity matters here. *)
Definition Instant : Type := Z.

(** Every call that reaches a file or the network, with its arguments. *)
Inductive Effect : Type :=
| EPathExists (path : string)
| EReadTokenFile (path : string)
| ERefresh (creds : Credentials)
| EReadClientSecrets (path : string)
| ERunLocalServer (port : Z)
| EOpenWrite (path : string)
| EPrint (line : string)
| EBuild (serviceName version : string)
| EEventsList (req : EventsListRequest)
| EFreeBusyQuery (body : Py.val)
| ECalendarsGet (calendar_id : string)
| EHttpGet (url : string) (headers : list (string * string)).

(** The parties on the other side of the library calls. *)
Record World : Type := {
  (** [os.environ] *)
  environ : gmap string string;
  (** [datetime.datetime.now()], and its [isoformat()] *)
  now : Instant;
  now_isoformat : string;
  (** [zoneinfo.ZoneInfo(key)]: raises for an unknown key, otherwise gives
      the zone, seen as its UTC offset in seconds at every instant *)
  ZoneInfo : string -> Py.exn + (Instant -> Z);
  (** [Credentials.from_authorized_user_file], on the content of the file *)
  from_authorized_user_info : string -> list string -> Py.exn + Credentials;
  (** [creds.refresh(Request())]: raises, or updates the credential *)
  refresh : Credentials -> Py.exn + Credentials;
  (** [InstalledAppFlow.from_client_secrets_file], on the content *)
  from_client_config : string -> list string -> Py.exn + Flow;
  (** [flow.run_local_server(port=0)] *)
  run_local_server : Flow -> Py.exn + Credentials;
  (** [creds.to_json()] *)
  to_json : Credentials -> string;
  (** [open(path, "w")]: [Some error] when the file cannot be opened *)
  open_w : string -> option Py.exn;
  (** [build("calendar", "v3", credentials=creds)] *)
  build : Credentials -> option Py.exn;
  (** [service.events().list(...).execute()] *)
  events_list_execute : EventsListRequest -> Py.exn + Py.val;
  (** [service.freebusy().query(body=query).execute()] *)
  freebusy_query_execute : Py.val -> Py.exn + Py.val;
  (** [service.calendars().get(calendarId=...).execute()] *)
  calendars_get_execute : string -> Py.exn + Py.val;
  (** [requests.get(url, headers=headers)] *)
  requests_get : string -> list (string * string) -> Py.exn + Response
}.

(** The state the code threads: the files (path to content) and the calls
    made so far, oldest first. *)
Record State : Type := {
  files : gmap string string;
  trace : list Effect
}.

(** ** A monad for state and exceptions *)

Inductive Res (A : Type) : Type :=
| Return (a : A)
| Raise (e : Py.exn).
Arguments Return {A} a.
Arguments Raise {A} e.

Definition M (A : Type) : Type := State -> Res A * State.

Definition ret {A} (a : A) : M A := fun s => (Return a, s).
Definition raise {A} (e : Py.exn) : M A := fun s => (Raise e, s).

Definition bind {A B} (m : M A) (k : A -> M B) : M B :=
  fun s => match m s with
           | (Return a, s') => k a s'
           | (Raise e, s') => (Raise e, s')
           end.

(** [try: m  except Exception as error: h error] *)
Definition try_except {A} (m : M A) (h : Py.exn -> M A) : M A :=
  fun s => match m s with
           | (Return a, s') => (Return a, s')
           | (Raise e, s') => h e s'
           end.

Declare Scope py_scope.
Delimit Scope py_scope with py.
Notation "x <- m ;; k" := (bind m (fun x => k))
  (at level 100, m at next level, right associativity) : py_scope.
Notation "m ;;; k" := (bind m (fun _ => k))
  (at level 100, right associativity) : py_scope.
Local Open Scope py_scope.

(** Record a call. *)
Definition emit (e : Effect) : M unit :=
  fun s => (Return tt, {| files := files s; trace := (trace s ++ [e])%list |}).

(** Turn the answer of the world into a result or a raised exception. *)
Definition lift {A} (r : Py.exn + A) : M A :=
  match r with
  | inl e => raise e
  | inr a => ret a
  end.

Definition lift_unit (r : option Py.exn) : M unit :=
  match r with
  | Some e => raise e
  | None => ret tt
  end.

Definition get_files : M (gmap string string) := fun s => (Return (files s), s).

Definition put_file (path content : string) : M unit :=
  fun s => (Return tt, {| files := <[path := content]> (files s); trace := trace s |}).

(** ** Library functions with a fixed meaning *)

(** [urllib.parse.quote(s)], on the UTF-8 bytes of [s]: letters, digits and
    [_.-~/] stay, every other byte becomes [%XX]. *)
Definition quote_safe (c : ascii) : bool :=
  let n := N_of_ascii c in
  ((65 <=? n) && (n <=? 90) || (97 <=? n) && (n <=? 122) || (48 <=? n) && (n <=? 57)
   || (n =? 95) || (n =? 46) || (n =? 45) || (n =? 126) || (n =? 47))%N.

Definition hex_digit (n : N) : string :=
  match String.get (N.to_nat n) "0123456789ABCDEF" with
  | Some c => String c EmptyString
  | None => EmptyString
  end.

Fixpoint quote (s : string) : string :=
  match s with
  | EmptyString => EmptyString
  | String c s' =>
      (if quote_safe c then String c EmptyString
       else "%" +:+ hex_digit (N_of_ascii c / 16) +:+ hex_digit (N_of_ascii c mod 16))
      +:+ quote s'
  end.

(** [datetime.timedelta], as its length in microseconds. *)
Definition timedelta : Type := Z.
Definition timedelta_seconds (s : Z) : timedelta := s * 1000000.
Definition timedelta_sub (a b : timedelta) : timedelta := a - b.

(** [a / b] on two [int]s that a [float] holds exactly (up to [2^53]), which
    is how far a difference of two UTC offsets in microseconds can get. *)
Definition int_truediv (a b : Z) : Py.float :=
  Py.float_div (Py.float_of_int a) (Py.float_of_int b).

(** [td.total_seconds()] is [microseconds / 10**6]. *)
Definition total_seconds (td : timedelta) : Py.float := int_truediv td 1000000.

(** [len(v)] *)
Definition py_len (v : Py.val) : M Z :=
  match v with
  | Py.Str s => ret (Z.of_nat (String.length s))
  | Py.List l => ret (Z.of_nat (List.length l))
  | Py.Dict d => ret (Z.of_nat (List.length d))
  | _ => raise (Py.TypeError ("object of type '" +:+ Py.type_name v +:+ "' has no len()"))
  end.

(** [v[0]]; a [dict] parsed from JSON has no key [0]. *)
Definition py_getitem0 (v : Py.val) : M Py.val :=
  match v with
  | Py.List (x :: _) => ret x
  | Py.List [] => raise (Py.IndexError "list index out of range")
  | Py.Str (String c _) => ret (Py.Str (String c EmptyString))
  | Py.Str EmptyString => raise (Py.IndexError "string index out of range")
  | Py.Dict _ => raise (Py.Exn "KeyError" "0")
  | _ => raise (Py.TypeError ("'" +:+ Py.type_name v +:+ "' object is not subscriptable"))
  end.

(** [v.get(key, default)]: only a [dict] has the method. *)
Definition py_get (v : Py.val) (key : string) (default : Py.val) : M Py.val :=
  match v with
  | Py.Dict d => ret (match Py.dict_lookup key d with Some x => x | None => default end)
  | _ => raise (Py.AttributeError v "get")
  end.

(** ** The server *)

Section Server.

Variable w : World.

(** [os.environ[key]] *)
Definition environ_getitem (key : string) : M string :=
  match environ w !! key with
  | Some v => ret v
  | None => raise (Py.KeyError key)
  end.

(** [os.path.exists(path)] *)
Definition os_path_exists (path : string) : M bool :=
  emit (EPathExists path);;;
  fs <- get_files;;
  ret (bool_decide (is_Some (fs !! path))).

(** [Credentials.from_authorized_user_file(path, scopes)] *)
Definition from_authorized_user_file (path : string) (scopes : list string)
  : M Credentials :=
  emit (EReadTokenFile path);;;
  fs <- get_files;;
  match fs !! path with
  | Some content => lift (from_authorized_user_info w content scopes)
  | None => raise (Py.FileNotFoundError path)
  end.

(** [InstalledAppFlow.from_client_secrets_file(path, scopes)] *)
Definition from_client_secrets_file (path : string) (scopes : list string)
  : M Flow :=
  emit (EReadClientSecrets path);;;
  fs <- get_files;;
  match fs !! path with
  | Some content => lift (from_client_config w content scopes)
  | None => raise (Py.FileNotFoundError path)
  end.

(** [with open(path, "w") as f: f.write(content)] *)
Definition write_text (path content : string) : M unit :=
  emit (EOpenWrite path);;;
  lift_unit (open_w w path);;;
  put_file path content.

(** Truth value of an attribute that is [None] or a [str]. *)
Definition truthy_str (o : option string) : bool :=
  match o with
  | Some s => negb (String.eqb s "")
  | None => false
  end.

Definition SCOPES : list string :=
  ["https://www.googleapis.com/auth/calendar.readonly"].

(** [get_gcal_credentials()] *)
Definition get_gcal_credentials : M Credentials :=
  paths <- try_except
             (GCAL_TOKEN_PATH <- environ_getitem "GCAL_TOKEN_PATH";;
              GCAL_CREDENTIALS_PATH <- environ_getitem "GCAL_CREDENTIALS_PATH";;
              ret (GCAL_TOKEN_PATH, GCAL_CREDENTIALS_PATH))
             (fun error =>
                if Py.is_KeyError error
                then raise (Py.KeyError ("Can't find enviroment variable "
                                         +:+ Py.exc_str error))
                else raise error);;
  let GCAL_TOKEN_PATH := fst paths in
  let GCAL_CREDENTIALS_PATH := snd paths in
  found <- os_path_exists GCAL_TOKEN_PATH;;
  creds <- (if found : bool
            then c <- from_authorized_user_file GCAL_TOKEN_PATH SCOPES;; ret (Some c)
            else ret None);;
  let login : M Credentials :=
    flow <- from_client_secrets_file GCAL_CREDENTIALS_PATH SCOPES;;
    emit (ERunLocalServer 0);;;
    lift (run_local_server w flow) in
  creds <- match creds with
           | None => login
           | Some c =>
               if negb (valid c) then
                 if expired c && truthy_str (refresh_token c)
                 then emit (ERefresh c);;; lift (refresh w c)
                 else login
               else ret c
           end;;
  write_text "token.json" (to_json w creds);;;
  ret creds.

(** [f"An error occurred: {error}"] *)
Definition an_error_occurred (error : Py.exn) : Py.val :=
  Py.Str ("An error occurred: " +:+ Py.exc_str error).

(** A [try] block whose [except Exception] clause returns from the
    function: [inl] is the value returned by the handler. *)
Definition try_or_return {A} (body : M A) (handler : Py.exn -> Py.val)
  : M (Py.val + A) :=
  try_except (a <- body;; ret (inr a)) (fun error => ret (inl (handler error))).

(** [dt.astimezone(zoneinfo.ZoneInfo(tz)).utcoffset()] *)
Definition utcoffset (tz : string) : M timedelta :=
  zone <- lift (ZoneInfo w tz);;
  ret (timedelta_seconds (zone (now w))).

(** [get_timezone_difference(tz1, tz2)] *)
Definition get_timezone_difference (tz1 tz2 : string) : M Py.val :=
  r <- try_or_return
         (tz1_utc <- utcoffset tz1;;
          tz2_utc <- utcoffset tz2;;
          ret (tz1_utc, tz2_utc))
         (fun error =>
            Py.Dict [("result", an_error_occurred error); ("delta", Py.None_)]);;
  match r with
  | inl out => ret out
  | inr (tz1_utc, tz2_utc) =>
      let tzdiff :=
        Py.float_div (total_seconds (timedelta_sub tz2_utc tz1_utc))
                     (Py.float_of_int 3600) in
      ret (Py.Dict [("result", Py.Str "success"); ("delta", Py.Float tzdiff)])
  end.

(** The [url] and the [headers] of the directory search. *)
Definition registry_url (name : string) : string :=
  let encoded_query := quote name in
  "https://registry.sqprod.co/api/v2/users/search?query=" +:+ encoded_query.

Definition registry_headers : list (string * string) :=
  [("accept", "application/json")].

(** [lookup_registry_email(name)] *)
Definition lookup_registry_email (name : string) : M Py.val :=
  let url := registry_url name in
  let headers := registry_headers in
  try_except
    (emit (EHttpGet url headers);;;
     response <- lift (requests_get w url headers);;
     if Z.eqb (status_code response) 200 then
       data <- lift (json response);;
       nonempty <- (if Py.truthy data
                    then n <- py_len data;; ret (Z.ltb 0 n)
                    else ret false);;
       if nonempty : bool then
         first <- py_getitem0 data;;
         py_get first "email" (Py.Str "Email not found in response")
       else
         ret (Py.Str ("No results found for '" +:+ name +:+ "'"))
     else
       ret (Py.Str ("Error: API returned status code "
                    +:+ Py.str_of_int (status_code response))))
    (fun e => ret (Py.Str ("Error making request: " +:+ Py.exc_str e))).

(** [retrieve_calendar_events(id)].  The handlers read [events] while it
    still is the empty list: its assignment is the last step of the [try]. *)
Definition retrieve_calendar_events (id : string) : M Py.val :=
  let events := Py.List [] in
  r <- try_or_return get_gcal_credentials
         (fun error =>
            Py.Dict [("result", an_error_occurred error); ("events", events)]);;
  match r with
  | inl out => ret out
  | inr creds =>
      r <- try_or_return
             (emit (EBuild "calendar" "v3");;;
              lift_unit (build w creds);;;
              let now := now_isoformat w +:+ "Z" in
              emit (EPrint "Getting the upcoming 10 events");;;
              let req := {| calendarId := "primary";
                            timeMin := now;
                            maxResults := 50;
                            singleEvents := true;
                            orderBy := "startTime" |} in
              emit (EEventsList req);;;
              events_result <- lift (events_list_execute w req);;
              py_get events_result "items" (Py.List []))
             (fun error =>
                Py.Dict [("result", an_error_occurred error); ("events", events)]);;
      match r with
      | inl out => ret out
      | inr events =>
          ret (Py.Dict [("result", Py.Str "success"); ("events", events)])
      end
  end.

(** The [query] body of the free/busy tool. *)
Definition free_busy_query (time_min time_max timezone : string) (ids : list Py.val)
  : Py.val :=
  let items := map (fun x => Py.Dict [("id", x)]) ids in
  Py.Dict [("timeMin", Py.Str time_min);
           ("timeMax", Py.Str time_max);
           ("timeZone", Py.Str timezone);
           ("groupExpansionMax", Py.Int 2);
           ("calendarExpansionMax", Py.Int 2);
           ("items", Py.List items)].

(** [retrieve_calendar_free_busy_slots(time_min, time_max, timezone, ids)] *)
Definition retrieve_calendar_free_busy_slots
  (time_min time_max timezone : string) (ids : list Py.val) : M Py.val :=
  r <- try_or_return get_gcal_credentials
         (fun error =>
            Py.Dict [("result", an_error_occurred error); ("response", Py.Dict [])]);;
  match r with
  | inl out => ret out
  | inr creds =>
      let query := free_busy_query time_min time_max timezone ids in
      r <- try_or_return
             (emit (EBuild "calendar" "v3");;;
              lift_unit (build w creds);;;
              emit (EFreeBusyQuery query);;;
              lift (freebusy_query_execute w query))
             (fun error =>
                Py.Dict [("result", an_error_occurred error); ("response", Py.Dict [])]);;
      match r with
      | inl out => ret out
      | inr response =>
          ret (Py.Dict [("result", Py.Str "success"); ("response", response)])
      end
  end.

(** [retrieve_timezone(calendar_id)] *)
Definition retrieve_timezone (calendar_id : string) : M Py.val :=
  r <- try_or_return get_gcal_credentials
         (fun error =>
            Py.Dict [("result", an_error_occurred error); ("response", Py.Dict [])]);;
  match r with
  | inl out => ret out
  | inr creds =>
      r <- try_or_return
             (emit (EBuild "calendar" "v3");;;
              lift_unit (build w creds);;;
              emit (ECalendarsGet calendar_id);;;
              lift (calendars_get_execute w calendar_id))
             (fun error =>
                Py.Dict [("result", an_error_occurred error); ("response", Py.Dict [])]);;
      match r with
      | inl out => ret out
      | inr response =>
          ret (Py.Dict [("result", Py.Str "success"); ("response", response)])
      end
  end.

End Server.

(** ** Running a computation *)

Definition result_of {A} (m : M A) (s : State) : Res A := fst (m s).
Definition trace_of {A} (m : M A) (s : State) : list Effect := trace (snd (m s)).
Definition files_of {A} (m : M A) (s : State) : gmap string string := files (snd (m s)).

(** A computation adds calls to the trace, all of them in [P]. *)
Definition emits_only (P : Effect -> Prop) {A} (m : M A) : Prop :=
  forall s, exists t, trace (snd (m s)) = (trace s ++ t)%list /\ Forall P t.

(** ** Reading the specification's terms on the code *)

(** The calls of credential acquisition: the token file, the identity
    provider and the interactive flow. *)
Definition acquisition_call (e : Effect) : Prop :=
  match e with
  | EPathExists _ | EReadTokenFile _ | ERefresh _
  | EReadClientSecrets _ | ERunLocalServer _ | EOpenWrite _ => True
  | _ => False
  end.

(** The calls to an upstream service: the calendar client and the
    directory endpoint. *)
Definition upstream_call (e : Effect) : bool :=
  match e with
  | EBuild _ _ | EEventsList _ | EFreeBusyQuery _ | ECalendarsGet _ | EHttpGet _ _ => true
  | _ => false
  end.

(** The result envelope of the specification.  A tool's dict has one field,
    [result], for both the status and the diagnostic: it is the text
    [success], or the diagnostic of a failure. *)
Inductive Status : Type := success | error.

Record Envelope : Type := {
  status : Status;
  payload : Py.val;
  message : option string
}.

Definition envelope_of (payload_key : string) (v : Py.val) : option Envelope :=
  match v with
  | Py.Dict d =>
      match Py.dict_lookup "result" d, Py.dict_lookup payload_key d with
      | Some (Py.Str r), Some p =>
          Some (if String.eqb r "success"
                then {| status := success; payload := p; message := None |}
                else {| status := error; payload := p; message := Some r |})
      | _, _ => None
      end
  | _ => None
  end.

(** An empty or absent payload. *)
Definition empty_payload (p : Py.val) : Prop :=
  p = Py.None_ \/ p = Py.List [] \/ p = Py.Dict [].

(** The two states of an envelope. *)
Definition two_state (env : Envelope) : Prop :=
  (status env = success /\ message env = None)
  \/ (status env = error /\ empty_payload (payload env)
      /\ exists m, message env = Some m /\ m <> "").

(** A tool keeps the envelope contract when every call returns, without
    raising, a value that reads as an envelope in one of the two states. *)
Definition keeps_envelope (payload_key : string) (tool : M Py.val) : Prop :=
  forall s, exists v env,
    result_of tool s = Return v
    /\ envelope_of payload_key v = Some env
    /\ two_state env.

(** The error-state dict of a tool whose payload field is [key]. *)
Definition error_dict (key : string) (empty : Py.val) (error : Py.exn) : Py.val :=
  Py.Dict [("result", an_error_occurred error); (key, empty)].

(** A free/busy request is rejected up front when the tool returns an
    error-state dict and has made no call at all. *)
Definition rejected_up_front (w : World) (s : State)
  (time_min time_max timezone : string) (ids : list Py.val) : Prop :=
  let m := retrieve_calendar_free_busy_slots w time_min time_max timezone ids in
  trace_of m s = trace s
  /\ exists msg, result_of m s
                 = Return (Py.Dict [("result", Py.Str msg); ("response", Py.Dict [])])
                 /\ msg <> "success".

(** The events of a returned dict. *)
Definition events_of (r : Res Py.val) : option (list Py.val) :=
  match r with
  | Return (Py.Dict d) =>
      match Py.dict_lookup "events" d with
      | Some (Py.List l) => Some l
      | _ => None
      end
  | _ => None
  end.

(** The [delta] of a returned dict. *)
Definition delta_of (r : Res Py.val) : option Py.float :=
  match r with
  | Return (Py.Dict d) =>
      match Py.dict_lookup "delta" d with
      | Some (Py.Float f) => Some f
      | _ => None
      end
  | _ => None
  end.

(** Every list request of a trace names the calendar [primary]. *)
Definition lists_primary (e : Effect) : Prop :=
  match e with
  | EEventsList req => calendarId req = "primary"
  | _ => True
  end.

(** The token file at [token_path] loads as [c], which is not valid, has
    expired and has a refresh token, and the refresh exchange fails. *)
Definition refresh_fails (w : World) (s : State) (token_path : string)
  (c : Credentials) (e : Py.exn) : Prop :=
  environ w !! "GCAL_TOKEN_PATH" = Some token_path
  /\ is_Some (environ w !! "GCAL_CREDENTIALS_PATH")
  /\ (exists content, files s !! token_path = Some content
                      /\ from_authorized_user_info w content SCOPES = inr c)
  /\ valid c = false
  /\ expired c = true
  /\ truthy_str (refresh_token c) = true
  /\ refresh w c = inl e.

(** The interactive flow was started. *)
Definition login_started (t : list Effect) : Prop :=
  exists e, In e t /\ match e with
                      | EReadClientSecrets _ | ERunLocalServer _ => True
                      | _ => False
                      end.

(** The default arguments of the tools. *)
Definition default_ids : list Py.val := [Py.Str "primary"].
Definition default_timezone : string := "UTC".

(** ** Concrete worlds *)

Module Scenario.

Definition granted : Credentials :=
  {| token := Some "ya29.granted"; refresh_token := Some "1//refresh";
     valid := true; expired := false |}.

Definition stale : Credentials :=
  {| token := Some "ya29.stale"; refresh_token := Some "1//refresh";
     valid := false; expired := true |}.

Definition refreshed : Credentials :=
  {| token := Some "ya29.refreshed"; refresh_token := Some "1//refresh";
     valid := true; expired := false |}.

Definition zones (key : string) : Py.exn + (Instant -> Z) :=
  if String.eqb key "UTC" then inr (fun _ => 0)
  else if String.eqb key "Asia/Kolkata" then inr (fun _ => 19800)
  else if String.eqb key "America/New_York" then inr (fun _ => -18000)
  else inl (Py.Exn "ZoneInfoNotFoundError"
                   (Py.repr_str ("No time zone found with key " +:+ key))).

(** A calendar service holding [upcoming], the single instances from
    [timeMin] on by start time: it answers a list request with the first
    [maxResults] of them. *)
Definition calendar_service (upcoming : list Py.val) (req : EventsListRequest)
  : Py.exn + Py.val :=
  inr (Py.Dict [("kind", Py.Str "calendar#events");
                ("items", Py.List (take (Z.to_nat (maxResults req)) upcoming))]).

Definition event (summary start : string) : Py.val :=
  Py.Dict [("summary", Py.Str summary);
           ("start", Py.Dict [("dateTime", Py.Str start)])].

(** Twelve upcoming instances, three of them of one recurring series. *)
Definition twelve_events : list Py.val :=
  [event "standup" "2024-01-01T09:00:00Z"; event "review" "2024-01-01T11:00:00Z";
   event "standup" "2024-01-02T09:00:00Z"; event "lunch" "2024-01-02T12:00:00Z";
   event "standup" "2024-01-03T09:00:00Z"; event "planning" "2024-01-03T14:00:00Z";
   event "demo" "2024-01-04T10:00:00Z"; event "retro" "2024-01-04T15:00:00Z";
   event "1:1" "2024-01-05T09:30:00Z"; event "all-hands" "2024-01-05T16:00:00Z";
   event "offsite" "2024-01-08T09:00:00Z"; event "dentist" "2024-01-09T08:00:00Z"].

Definition two_records : Py.val :=
  Py.List [Py.Dict [("name", Py.Str "Jane Doe"); ("email", Py.Str "jane@x.com")];
           Py.Dict [("name", Py.Str "Jane Doerr"); ("email", Py.Str "jdoerr@x.com")]].

Definition configured : gmap string string :=
  {[ "GCAL_TOKEN_PATH" := "/cfg/token.json";
     "GCAL_CREDENTIALS_PATH" := "/cfg/credentials.json" ]}.

Definition base : World := {|
  environ := configured;
  now := 1704067200;
  now_isoformat := "2024-01-01T00:00:00";
  ZoneInfo := zones;
  from_authorized_user_info := fun content _ =>
    if String.eqb content "stale-token" then inr stale else inr granted;
  refresh := fun _ => inr refreshed;
  from_client_config := fun content _ => inr {| client_config := content |};
  run_local_server := fun _ => inr granted;
  to_json := fun c => match token c with Some t => t | None => "" end;
  open_w := fun _ => None;
  build := fun _ => None;
  events_list_execute := calendar_service twelve_events;
  freebusy_query_execute := fun _ =>
    inr (Py.Dict [("calendars", Py.Dict [("primary", Py.Dict [("busy", Py.List [])])])]);
  calendars_get_execute := fun _ => inr (Py.Dict [("timeZone", Py.Str "UTC")]);
  requests_get := fun _ _ => inr {| status_code := 200; json := inr two_records |}
|}.

Definition with_environ (env : gmap string string) (w : World) : World := {|
  environ := env;
  now := now w; now_isoformat := now_isoformat w; ZoneInfo := ZoneInfo w;
  from_authorized_user_info := from_authorized_user_info w;
  refresh := refresh w; from_client_config := from_client_config w;
  run_local_server := run_local_server w; to_json := to_json w;
  open_w := open_w w; build := build w;
  events_list_execute := events_list_execute w;
  freebusy_query_execute := freebusy_query_execute w;
  calendars_get_execute := calendars_get_execute w;
  requests_get := requests_get w
|}.

Definition with_refresh (f : Credentials -> Py.exn + Credentials) (w : World)
  : World := {|
  environ := environ w;
  now := now w; now_isoformat := now_isoformat w; ZoneInfo := ZoneInfo w;
  from_authorized_user_info := from_authorized_user_info w;
  refresh := f; from_client_config := from_client_config w;
  run_local_server := run_local_server w; to_json := to_json w;
  open_w := open_w w; build := build w;
  events_list_execute := events_list_execute w;
  freebusy_query_execute := freebusy_query_execute w;
  calendars_get_execute := calendars_get_execute w;
  requests_get := requests_get w
|}.

Definition with_requests_get (r : Py.exn + Response) (w : World) : World := {|
  environ := environ w;
  now := now w; now_isoformat := now_isoformat w; ZoneInfo := ZoneInfo w;
  from_authorized_user_info := from_authorized_user_info w;
  refresh := refresh w; from_client_config := from_client_config w;
  run_local_server := run_local_server w; to_json := to_json w;
  open_w := open_w w; build := build w;
  events_list_execute := events_list_execute w;
  freebusy_query_execute := freebusy_query_execute w;
  calendars_get_execute := calendars_get_execute w;
  requests_get := fun _ _ => r
|}.

(** No environment variable is set. *)
Definition unconfigured : World := with_environ ∅ base.

(** The identity provider rejects the refresh token. *)
Definition invalid_grant : Py.exn :=
  Py.Exn "RefreshError" "('invalid_grant: Token has been expired or revoked.')".
Definition refresh_rejected : World := with_refresh (fun _ => inl invalid_grant) base.

(** The directory endpoint answers with status 500. *)
Definition directory_down : World :=
  with_requests_get (inr {| status_code := 500; json := inl (Py.Exn "JSONDecodeError" "Expecting value: line 1 column 1 (char 0)") |}) base.

(** A directory record whose email field holds the text of a failure. *)
Definition directory_odd : World :=
  with_requests_get
    (inr {| status_code := 200;
            json := inr (Py.List [Py.Dict [("email", Py.Str "Error: API returned status code 500")]]) |})
    base.

(** A valid token at the configured path. *)
Definition valid_token_stored : State :=
  {| files := {[ "/cfg/token.json" := "valid-token";
                 "/cfg/credentials.json" := "client-secret" ]};
     trace := [] |}.

(** An expired token, with a refresh token, at the configured path. *)
Definition stale_token_stored : State :=
  {| files := {[ "/cfg/token.json" := "stale-token";
                 "/cfg/credentials.json" := "client-secret" ]};
     trace := [] |}.

(** No token yet; the client-secret descriptor is in place. *)
Definition first_run : State :=
  {| files := {[ "/cfg/credentials.json" := "client-secret" ]}; trace := [] |}.

End Scenario.

(** ** Further readings of the code *)

(** What acquisition finds at the token path: no file, a file that does
    not load, or a credential. *)
Inductive Stored : Type :=
| NoToken
| Unreadable (e : Py.exn)
| Loaded (c : Credentials).

Definition stored (w : World) (s : State) (token_path : string) : Stored :=
  match files s !! token_path with
  | None => NoToken
  | Some content =>
      match from_authorized_user_info w content SCOPES with
      | inl e => Unreadable e
      | inr c => Loaded c
      end
  end.

(** A refresh exchange was attempted. *)
Definition refresh_attempted (t : list Effect) : Prop :=
  exists c, In (ERefresh c) t.

(** The requests sent to the calendar service. *)
Definition execute_call (e : Effect) : bool :=
  match e with
  | EEventsList _ | EFreeBusyQuery _ | ECalendarsGet _ => true
  | _ => false
  end.

(** The calls of the calendar client. *)
Definition client_call (e : Effect) : Prop :=
  match e with
  | EBuild _ _ | EPrint _ | EEventsList _ | EFreeBusyQuery _ | ECalendarsGet _ => True
  | _ => False
  end.

(** A float with the sign bit [s]; a NaN has none. *)
Definition has_sign (s : bool) (f : Py.float) : Prop :=
  match f with
  | S754_zero s' | S754_infinity s' | S754_finite s' _ _ => s' = s
  | S754_nan => False
  end.

(** [x <= y] on floats. *)
Definition float_le (x y : Py.float) : bool := SFleb x y.

#[local] Instance float_eq_dec : EqDecision Py.float.
Proof. solve_decision. Defined.

(** The characters of a quoted text. *)
Definition quoted_char (c : ascii) : bool := quote_safe c || Ascii.eqb c "%".

Fixpoint all_chars (p : ascii -> bool) (s : string) : bool :=
  match s with
  | EmptyString => true
  | String c s' => p c && all_chars p s'
  end.

(** The value of a hexadecimal digit, upper case as [quote] writes it. *)
Definition hex_value (c : ascii) : option N :=
  let n := N_of_ascii c in
  if ((48 <=? n) && (n <=? 57))%N then Some (n - 48)%N
  else if ((65 <=? n) && (n <=? 70))%N then Some (n - 55)%N
  else None.

(** The inverse of [quote]: [%XX] back to the byte. *)
Fixpoint unquote (s : string) : string :=
  match s with
  | EmptyString => EmptyString
  | String c s1 =>
      if Ascii.eqb c "%" then
        match s1 with
        | String a (String b s3) =>
            match hex_value a, hex_value b with
            | Some x, Some y => String (ascii_of_N (16 * x + y)) (unquote s3)
            | _, _ => String c (unquote s1)
            end
        | _ => String c (unquote s1)
        end
      else String c (unquote s1)
  end.

(** ** Further concrete worlds *)

Module Cases.

Definition with_loader (f : string -> list string -> Py.exn + Credentials)
  (w : World) : World := {|
  environ := environ w;
  now := now w; now_isoformat := now_isoformat w; ZoneInfo := ZoneInfo w;
  from_authorized_user_info := f;
  refresh := refresh w; from_client_config := from_client_config w;
  run_local_server := run_local_server w; to_json := to_json w;
  open_w := open_w w; build := build w;
  events_list_execute := events_list_execute w;
  freebusy_query_execute := freebusy_query_execute w;
  calendars_get_execute := calendars_get_execute w;
  requests_get := requests_get w
|}.

Definition with_open_w (f : string -> option Py.exn) (w : World) : World := {|
  environ := environ w;
  now := now w; now_isoformat := now_isoformat w; ZoneInfo := ZoneInfo w;
  from_authorized_user_info := from_authorized_user_info w;
  refresh := refresh w; from_client_config := from_client_config w;
  run_local_server := run_local_server w; to_json := to_json w;
  open_w := f; build := build w;
  events_list_execute := events_list_execute w;
  freebusy_query_execute := freebusy_query_execute w;
  calendars_get_execute := calendars_get_execute w;
  requests_get := requests_get w
|}.

Definition with_client (b : Credentials -> option Py.exn)
  (events : EventsListRequest -> Py.exn + Py.val)
  (freebusy : Py.val -> Py.exn + Py.val)
  (calendars : string -> Py.exn + Py.val) (w : World) : World := {|
  environ := environ w;
  now := now w; now_isoformat := now_isoformat w; ZoneInfo := ZoneInfo w;
  from_authorized_user_info := from_authorized_user_info w;
  refresh := refresh w; from_client_config := from_client_config w;
  run_local_server := run_local_server w; to_json := to_json w;
  open_w := open_w w; build := b;
  events_list_execute := events;
  freebusy_query_execute := freebusy;
  calendars_get_execute := calendars;
  requests_get := requests_get w
|}.

(** The token file holds text that is no credential. *)
Definition not_json : Py.exn :=
  Py.Exn "JSONDecodeError" "Expecting value: line 1 column 1 (char 0)".
Definition garbled : World := with_loader (fun _ _ => inl not_json) Scenario.base.

(** The working directory is read-only. *)
Definition denied : Py.exn :=
  Py.Exn "PermissionError" "[Errno 13] Permission denied: 'token.json'".
Definition read_only : World := with_open_w (fun _ => Some denied) Scenario.base.

(** The token path is the file the code writes. *)
Definition token_in_cwd : World :=
  Scenario.with_environ
    {[ "GCAL_TOKEN_PATH" := "token.json";
       "GCAL_CREDENTIALS_PATH" := "/cfg/credentials.json" ]}
    Scenario.base.

(** The directory endpoint cannot be reached. *)
Definition no_route : Py.exn :=
  Py.Exn "ConnectionError" "Max retries exceeded with url: /api/v2/users/search".
Definition unreachable : World := Scenario.with_requests_get (inl no_route) Scenario.base.

(** The directory endpoint answers 200 with [null]. *)
Definition answers_null : World :=
  Scenario.with_requests_get
    (inr {| status_code := 200; json := inr Py.None_ |}) Scenario.base.

(** The directory endpoint answers 200 with an object, not a list. *)
Definition answers_object : World :=
  Scenario.with_requests_get
    (inr {| status_code := 200;
            json := inr (Py.Dict [("message", Py.Str "rate limited")]) |})
    Scenario.base.

(** The calendar client cannot be built. *)
Definition no_discovery : Py.exn :=
  Py.Exn "UnknownApiNameOrVersion" "name: calendar  version: v3".
Definition client_fails : World :=
  with_client (fun _ => Some no_discovery)
    (events_list_execute Scenario.base) (freebusy_query_execute Scenario.base)
    (calendars_get_execute Scenario.base) Scenario.base.

(** The calendar service refuses every request. *)
Definition forbidden : Py.exn :=
  Py.Exn "HttpError" "<HttpError 403 when requesting the calendar returned Forbidden>".
Definition service_refuses : World :=
  with_client (fun _ => None) (fun _ => inl forbidden) (fun _ => inl forbidden)
    (fun _ => inl forbidden) Scenario.base.

(** The state after a first run in [token_in_cwd]. *)
Definition after_first_run : State :=
  {| files := <["token.json" := "ya29.granted"]> (files Scenario.first_run);
     trace := [EPathExists "token.json";
               EReadClientSecrets "/cfg/credentials.json";
               ERunLocalServer 0; EOpenWrite "token.json"] |}.

End Cases.

(** * Properties *)

(** ** Evaluation of the library models *)

Example repr_str_plain : Py.repr_str "GCAL_TOKEN_PATH" = "'GCAL_TOKEN_PATH'".
Proof. reflexivity. Qed.

Example repr_str_apostrophe :
  Py.repr_str "Can't" = Py.dquote +:+ "Can't" +:+ Py.dquote.
Proof. reflexivity. Qed.

Example str_of_int_500 : Py.str_of_int 500 = "500".
Proof. reflexivity. Qed.

Example str_of_int_negative : Py.str_of_int (-7) = "-7".
Proof. reflexivity. Qed.

Example quote_space_and_slash : quote "Jane Doe/x_1" = "Jane%20Doe/x_1".
Proof. reflexivity. Qed.

(** ** The trace of a computation *)

Section Emits.

Variable P : Effect -> Prop.

Lemma emits_only_ret {A} (a : A) : emits_only P (ret a).
Proof. intros s. exists []. simpl. rewrite app_nil_r. auto. Qed.

Lemma emits_only_raise {A} (e : Py.exn) : emits_only P (@raise A e).
Proof. intros s. exists []. simpl. rewrite app_nil_r. auto. Qed.

Lemma emits_only_emit (e : Effect) : P e -> emits_only P (emit e).
Proof. intros He s. exists [e]. simpl. auto. Qed.

Lemma emits_only_get_files : emits_only P get_files.
Proof. intros s. exists []. simpl. rewrite app_nil_r. auto. Qed.

Lemma emits_only_put_file (path content : string) :
  emits_only P (put_file path content).
Proof. intros s. exists []. simpl. rewrite app_nil_r. auto. Qed.

Lemma emits_only_lift {A} (r : Py.exn + A) : emits_only P (lift r).
Proof. destruct r; [apply emits_only_raise | apply emits_only_ret]. Qed.

Lemma emits_only_lift_unit (r : option Py.exn) : emits_only P (lift_unit r).
Proof. destruct r; [apply emits_only_raise | apply emits_only_ret]. Qed.

Lemma emits_only_bind {A B} (m : M A) (k : A -> M B) :
  emits_only P m -> (forall a, emits_only P (k a)) -> emits_only P (bind m k).
Proof.
  intros Hm Hk s. unfold bind.
  destruct (Hm s) as (t1 & E1 & F1).
  destruct (m s) as [[a | e] s1]; simpl in E1.
  - destruct (Hk a s1) as (t2 & E2 & F2).
    exists (t1 ++ t2)%list. rewrite E2, E1, app_assoc.
    split; [reflexivity | apply Forall_app; auto].
  - exists t1. simpl. auto.
Qed.

Lemma emits_only_try_except {A} (m : M A) (h : Py.exn -> M A) :
  emits_only P m -> (forall e, emits_only P (h e)) -> emits_only P (try_except m h).
Proof.
  intros Hm Hh s. unfold try_except.
  destruct (Hm s) as (t1 & E1 & F1).
  destruct (m s) as [[a | e] s1]; simpl in E1.
  - exists t1. simpl. auto.
  - destruct (Hh e s1) as (t2 & E2 & F2).
    exists (t1 ++ t2)%list. rewrite E2, E1, app_assoc.
    split; [reflexivity | apply Forall_app; auto].
Qed.

Lemma emits_only_try_or_return {A} (m : M A) (h : Py.exn -> Py.val) :
  emits_only P m -> emits_only P (try_or_return m h).
Proof.
  intros Hm. unfold try_or_return. apply emits_only_try_except.
  - apply emits_only_bind; [assumption | intros; apply emits_only_ret].
  - intros; apply emits_only_ret.
Qed.

Lemma emits_only_py_get (v : Py.val) (key : string) (default : Py.val) :
  emits_only P (py_get v key default).
Proof. destruct v; first [apply emits_only_raise | apply emits_only_ret]. Qed.

Lemma emits_only_py_len (v : Py.val) : emits_only P (py_len v).
Proof. destruct v; first [apply emits_only_raise | apply emits_only_ret]. Qed.

Lemma emits_only_py_getitem0 (v : Py.val) : emits_only P (py_getitem0 v).
Proof.
  destruct v as [| | | | [|] | [|] |];
    first [apply emits_only_raise | apply emits_only_ret].
Qed.

End Emits.

Lemma emits_only_weaken (P Q : Effect -> Prop) {A} (m : M A) :
  (forall e, P e -> Q e) -> emits_only P m -> emits_only Q m.
Proof.
  intros HPQ Hm s. destruct (Hm s) as (t & E & F).
  exists t. split; [assumption | eapply Forall_impl; eauto].
Qed.

(** Splits a goal on a computation along the shape of the code. *)
Ltac emits_step :=
  first
    [ assumption
    | apply emits_only_ret
    | apply emits_only_raise
    | apply emits_only_get_files
    | apply emits_only_put_file
    | apply emits_only_lift
    | apply emits_only_lift_unit
    | apply emits_only_py_get
    | apply emits_only_py_len
    | apply emits_only_py_getitem0
    | apply emits_only_emit; simpl; solve [trivial | reflexivity]
    | apply emits_only_try_or_return
    | apply emits_only_try_except; [| intros ?]
    | apply emits_only_bind; [| intros ?]
    | match goal with
      | |- emits_only _ (match ?x with _ => _ end) => destruct x
      end ].

Ltac emits := cbv zeta; repeat emits_step.

(** Credential acquisition calls nothing but the token file, the identity
    provider and the interactive flow. *)
Lemma get_gcal_credentials_calls (w : World) :
  emits_only acquisition_call (get_gcal_credentials w).
Proof.
  unfold get_gcal_credentials, write_text, from_client_secrets_file,
    from_authorized_user_file, os_path_exists, environ_getitem.
  emits.
Qed.

(** ** Credential acquisition *)

(** C8: when one of the two environment variables is absent, acquisition
    raises the [KeyError] that names it, and the state is the one it started
    from: no file was looked at, no exchange or flow was started. *)
Theorem missing_environment_short_circuits (w : World) (s : State) :
  environ w !! "GCAL_TOKEN_PATH" = None
  \/ environ w !! "GCAL_CREDENTIALS_PATH" = None ->
  exists name,
    (name = "GCAL_TOKEN_PATH" \/ name = "GCAL_CREDENTIALS_PATH")
    /\ environ w !! name = None
    /\ get_gcal_credentials w s
       = (Raise (Py.KeyError ("Can't find enviroment variable '" +:+ name +:+ "'")), s).
Proof.
  intros H. unfold get_gcal_credentials, bind, try_except, environ_getitem.
  destruct (environ w !! "GCAL_TOKEN_PATH") as [tp |] eqn:Etp.
  - destruct H as [H | H]; [discriminate |].
    exists "GCAL_CREDENTIALS_PATH". rewrite H. simpl. auto.
  - exists "GCAL_TOKEN_PATH". simpl. auto.
Qed.

Lemma missing_environment_witness :
  exists name,
    (name = "GCAL_TOKEN_PATH" \/ name = "GCAL_CREDENTIALS_PATH")
    /\ environ Scenario.unconfigured !! name = None
    /\ get_gcal_credentials Scenario.unconfigured Scenario.first_run
       = (Raise (Py.KeyError ("Can't find enviroment variable '" +:+ name +:+ "'")),
          Scenario.first_run).
Proof.
  apply (missing_environment_short_circuits Scenario.unconfigured Scenario.first_run).
  left. reflexivity.
Defined.

(** Unfolds the monad and the library calls of acquisition in [H]. *)
Ltac unfold_acquisition H :=
  cbv [get_gcal_credentials write_text from_client_secrets_file
       from_authorized_user_file os_path_exists environ_getitem
       bind try_except ret raise emit lift lift_unit get_files put_file] in H.

(** Case analysis on every answer of the world that [H] depends on,
    innermost first. *)
Ltac world_case H :=
  match type of H with
  | context [match ?x with _ => _ end] =>
      lazymatch x with
      | context [match _ with _ => _ end] => fail
      | _ => destruct x eqn:?
      end
  end.

Ltac world_cases H :=
  cbv beta iota zeta delta [fst snd] in H;
  repeat (world_case H; cbv beta iota zeta delta [fst snd] in H).

(** A successful acquisition leaves the serialized credential in the file
    named [token.json], whatever the configured token path is, and touches
    no other file. *)
Lemma get_gcal_credentials_writes (w : World) (s s' : State) (c : Credentials) :
  get_gcal_credentials w s = (Return c, s') ->
  files s' = <["token.json" := to_json w c]> (files s).
Proof.
  intros H. unfold_acquisition H. world_cases H;
    try discriminate; inversion H; subst; reflexivity.
Qed.

(** C2: the token path is configured as [/cfg/token.json] and holds an
    expired token.  Acquisition refreshes it and returns, yet the file at the
    token path still holds the old token: the refreshed one went to the file
    named [token.json]. *)
Theorem refreshed_credential_not_at_token_path :
  let m := get_gcal_credentials Scenario.base in
  let s := Scenario.stale_token_stored in
  environ Scenario.base !! "GCAL_TOKEN_PATH" = Some "/cfg/token.json"
  /\ result_of m s = Return Scenario.refreshed
  /\ files_of m s !! "/cfg/token.json" = Some "stale-token"
  /\ files_of m s !! "token.json" = Some (to_json Scenario.base Scenario.refreshed)
  /\ to_json Scenario.base Scenario.refreshed <> "stale-token".
Proof.
  cbv zeta. repeat split; try (vm_compute; reflexivity).
  vm_compute. discriminate.
Qed.

(** The same on a first run: the minted credential is not at the token
    path, so the next acquisition starts the interactive flow again. *)
Example minted_credential_not_at_token_path :
  let m := get_gcal_credentials Scenario.base in
  let s := Scenario.first_run in
  result_of m s = Return Scenario.granted
  /\ files_of m s !! "/cfg/token.json" = None
  /\ login_started (trace_of m s).
Proof.
  cbv zeta. repeat split; try (vm_compute; reflexivity).
  exists (ERunLocalServer 0). split; [| exact I].
  vm_compute. tauto.
Qed.

(** C4, as amended: when the loaded credential is not valid, has expired and
    has a refresh token, the refresh exchange is attempted; when it fails,
    its exception leaves acquisition as it is: after the look at the token
    file and the exchange nothing else is called, and no file is written. *)
Theorem refresh_failure_propagates
  (w : World) (s : State) (token_path : string) (c : Credentials) (e : Py.exn) :
  refresh_fails w s token_path c e ->
  get_gcal_credentials w s
  = (Raise e,
     {| files := files s;
        trace := (trace s ++ [EPathExists token_path; EReadTokenFile token_path;
                              ERefresh c])%list |}).
Proof.
  intros (Htp & [cp Hcp] & (content & Hfile & Hload) & Hvalid & Hexp & Hrt & Hrefresh).
  cbv [get_gcal_credentials write_text from_client_secrets_file
       from_authorized_user_file os_path_exists environ_getitem
       bind try_except ret raise emit lift lift_unit get_files put_file].
  rewrite Htp, Hcp. cbn [fst snd files trace].
  rewrite Hfile. rewrite bool_decide_eq_true_2 by eauto.
  cbn [files trace]. rewrite Hfile, Hload. cbn [files trace negb]. rewrite Hvalid, Hexp, Hrt. cbn [files trace negb andb]. rewrite Hrefresh.
  cbn [files trace]. rewrite <- !app_assoc. reflexivity.
Qed.

Lemma refresh_failure_propagates_witness :
  get_gcal_credentials Scenario.refresh_rejected Scenario.stale_token_stored
  = (Raise Scenario.invalid_grant,
     {| files := files Scenario.stale_token_stored;
        trace := [EPathExists "/cfg/token.json"; EReadTokenFile "/cfg/token.json";
                  ERefresh Scenario.stale] |}).
Proof.
  apply (refresh_failure_propagates Scenario.refresh_rejected
           Scenario.stale_token_stored "/cfg/token.json" Scenario.stale
           Scenario.invalid_grant).
  unfold refresh_fails. repeat split; try reflexivity.
  - exists "/cfg/credentials.json". reflexivity.
  - exists "stale-token". split; reflexivity.
Defined.

(** C4, as stated, fails: the refresh exchange is rejected, acquisition
    raises that very exception, and the interactive flow is not started. *)
Lemma refresh_failure_no_login :
  let m := get_gcal_credentials Scenario.refresh_rejected in
  let s := Scenario.stale_token_stored in
  refresh_fails Scenario.refresh_rejected s "/cfg/token.json" Scenario.stale
    Scenario.invalid_grant
  /\ In (ERefresh Scenario.stale) (trace_of m s)
  /\ result_of m s = Raise Scenario.invalid_grant
  /\ ~ login_started (trace_of m s).
Proof.
  cbv zeta. split; [| split; [| split]].
  - unfold refresh_fails. repeat split; try reflexivity.
    + exists "/cfg/credentials.json". reflexivity.
    + exists "stale-token". split; reflexivity.
  - vm_compute. tauto.
  - vm_compute. reflexivity.
  - intros (e & Hin & He). vm_compute in Hin.
    destruct Hin as [<- | [<- | [<- | []]]]; exact He.
Qed.

(** ** The calendar tools *)

(** Unfolds a tool down to the calls it makes, acquisition kept folded. *)
Ltac unfold_tool :=
  cbv [retrieve_calendar_events retrieve_calendar_free_busy_slots
       retrieve_timezone try_or_return try_except bind ret raise emit
       lift lift_unit].

Lemma error_dict_reads_as_error (key : string) (empty : Py.val) (e : Py.exn) :
  String.eqb key "result" = false ->
  envelope_of key (error_dict key empty e)
  = Some {| status := error; payload := empty;
            message := Some ("An error occurred: " +:+ Py.exc_str e) |}.
Proof.
  intros Hkey. unfold envelope_of, error_dict, an_error_occurred.
  cbn [Py.dict_lookup]. rewrite Hkey, !String.eqb_refl. reflexivity.
Qed.

(** The error-state dict of a tool is an envelope in the error state. *)
Lemma error_dict_two_state (key : string) (empty : Py.val) (e : Py.exn) :
  String.eqb key "result" = false ->
  empty_payload empty ->
  exists env, envelope_of key (error_dict key empty e) = Some env
              /\ status env = error
              /\ two_state env.
Proof.
  intros Hkey Hempty. eexists.
  split; [apply error_dict_reads_as_error, Hkey |].
  split; [reflexivity |]. right. cbn.
  split; [reflexivity |]. split; [exact Hempty |].
  eexists. split; [reflexivity | discriminate].
Qed.

(** C3: when acquisition raises [e], each of the three calendar tools
    returns its error-state dict with the text of [e], in the state that
    acquisition left; the calls made up to there are those of acquisition,
    none of them to an upstream service. *)
Theorem failed_acquisition_no_upstream (w : World) (s s' : State) (e : Py.exn) :
  get_gcal_credentials w s = (Raise e, s') ->
  (forall id,
      retrieve_calendar_events w id s
      = (Return (error_dict "events" (Py.List []) e), s'))
  /\ (forall time_min time_max timezone ids,
         retrieve_calendar_free_busy_slots w time_min time_max timezone ids s
         = (Return (error_dict "response" (Py.Dict []) e), s'))
  /\ (forall calendar_id,
         retrieve_timezone w calendar_id s
         = (Return (error_dict "response" (Py.Dict []) e), s'))
  /\ (exists t, trace s' = (trace s ++ t)%list
                /\ Forall (fun call => upstream_call call = false) t)
  /\ (exists env, envelope_of "events" (error_dict "events" (Py.List []) e) = Some env
                  /\ status env = error /\ two_state env)
  /\ (exists env, envelope_of "response" (error_dict "response" (Py.Dict []) e) = Some env
                  /\ status env = error /\ two_state env).
Proof.
  intros H. split; [| split; [| split; [| split; [| split]]]].
  - intros id. unfold_tool. rewrite H. reflexivity.
  - intros time_min time_max timezone ids. unfold_tool. rewrite H. reflexivity.
  - intros calendar_id. unfold_tool. rewrite H. reflexivity.
  - destruct (get_gcal_credentials_calls w s) as (t & Et & Ft).
    rewrite H in Et. exists t. split; [exact Et |].
    eapply Forall_impl; [exact Ft |].
    intros [] Hcall; simpl in Hcall; try contradiction; reflexivity.
  - apply error_dict_two_state; [reflexivity | right; left; reflexivity].
  - apply error_dict_two_state; [reflexivity | right; right; reflexivity].
Qed.

Lemma failed_acquisition_witness :
  retrieve_calendar_events Scenario.unconfigured "primary" Scenario.first_run
  = (Return (error_dict "events" (Py.List [])
               (Py.KeyError "Can't find enviroment variable 'GCAL_TOKEN_PATH'")),
     Scenario.first_run).
Proof.
  apply (failed_acquisition_no_upstream Scenario.unconfigured Scenario.first_run
           Scenario.first_run
           (Py.KeyError "Can't find enviroment variable 'GCAL_TOKEN_PATH'")).
  reflexivity.
Defined.

(** With a credential and a client at hand, the one list request of the
    tool is the following, whatever [id] is. *)
Lemma retrieve_calendar_events_request
  (w : World) (s s1 : State) (c : Credentials) (id : string) :
  get_gcal_credentials w s = (Return c, s1) ->
  build w c = None ->
  trace_of (retrieve_calendar_events w id) s
  = (trace s1 ++ [EBuild "calendar" "v3";
                  EPrint "Getting the upcoming 10 events";
                  EEventsList {| calendarId := "primary";
                                 timeMin := now_isoformat w +:+ "Z";
                                 maxResults := 50;
                                 singleEvents := true;
                                 orderBy := "startTime" |}])%list.
Proof.
  intros Hc Hb. unfold trace_of. unfold_tool. rewrite Hc, Hb.
  cbv beta iota zeta.
  destruct (events_list_execute w _) as [e | resp]; cbn.
  - rewrite <- !app_assoc. reflexivity.
  - destruct resp; cbn; rewrite <- !app_assoc; reflexivity.
Qed.

(** With a credential and a client at hand, the result of the tool is read
    off the answer to that request, whatever [id] is. *)
Lemma retrieve_calendar_events_answer
  (w : World) (s s1 : State) (c : Credentials) (id : string) :
  get_gcal_credentials w s = (Return c, s1) ->
  build w c = None ->
  result_of (retrieve_calendar_events w id) s
  = Return (match events_list_execute w {| calendarId := "primary";
                                           timeMin := now_isoformat w +:+ "Z";
                                           maxResults := 50;
                                           singleEvents := true;
                                           orderBy := "startTime" |} with
            | inl e => error_dict "events" (Py.List []) e
            | inr (Py.Dict d) =>
                Py.Dict [("result", Py.Str "success");
                         ("events", match Py.dict_lookup "items" d with
                                    | Some items => items
                                    | None => Py.List []
                                    end)]
            | inr v => error_dict "events" (Py.List []) (Py.AttributeError v "get")
            end).
Proof.
  intros Hc Hb. unfold result_of. unfold_tool. rewrite Hc, Hb.
  cbv beta iota zeta.
  destruct (events_list_execute w _) as [e | resp]; [reflexivity |].
  destruct resp; reflexivity.
Qed.

(** C10: the [id] argument of the events tool plays no part.  Two calls that
    differ in it alone give the same result and the same trace, and every
    list request that the tool issues names the calendar [primary].  With a
    credential and a client at hand the request is issued: after the calls
    of acquisition come the build of the client, the log line and one list
    request for the calendar [primary], the same for both values of [id],
    and the result of both calls is read off the answer to that request. *)
Theorem retrieve_calendar_events_ignores_id (w : World) (s : State) (id1 id2 : string) :
  let req := {| calendarId := "primary";
                timeMin := now_isoformat w +:+ "Z";
                maxResults := 50;
                singleEvents := true;
                orderBy := "startTime" |} in
  let calls := [EBuild "calendar" "v3";
                EPrint "Getting the upcoming 10 events";
                EEventsList req] in
  let answer := Return (match events_list_execute w req with
                        | inl e => error_dict "events" (Py.List []) e
                        | inr (Py.Dict d) =>
                            Py.Dict [("result", Py.Str "success");
                                     ("events", match Py.dict_lookup "items" d with
                                                | Some items => items
                                                | None => Py.List []
                                                end)]
                        | inr v => error_dict "events" (Py.List [])
                                     (Py.AttributeError v "get")
                        end) in
  retrieve_calendar_events w id1 s = retrieve_calendar_events w id2 s
  /\ emits_only lists_primary (retrieve_calendar_events w id1)
  /\ forall c s1,
       get_gcal_credentials w s = (Return c, s1) ->
       build w c = None ->
       trace_of (retrieve_calendar_events w id1) s = (trace s1 ++ calls)%list
       /\ trace_of (retrieve_calendar_events w id2) s = (trace s1 ++ calls)%list
       /\ result_of (retrieve_calendar_events w id1) s = answer
       /\ result_of (retrieve_calendar_events w id2) s = answer.
Proof.
  cbv zeta. split; [reflexivity |]. split.
  - assert (Hacq : emits_only lists_primary (get_gcal_credentials w)).
    { apply emits_only_weaken with (P := acquisition_call);
        [| apply get_gcal_credentials_calls].
      intros [] Hcall; simpl in Hcall; try contradiction; exact I. }
    unfold retrieve_calendar_events. emits.
  - intros c s1 Hc Hb. repeat split.
    + apply (retrieve_calendar_events_request w s s1 c id1 Hc Hb).
    + apply (retrieve_calendar_events_request w s s1 c id2 Hc Hb).
    + apply (retrieve_calendar_events_answer w s s1 c id1 Hc Hb).
    + apply (retrieve_calendar_events_answer w s s1 c id2 Hc Hb).
Qed.

Lemma retrieve_calendar_events_ignores_id_witness :
  trace_of (retrieve_calendar_events Scenario.base "someone@x.com")
    Scenario.valid_token_stored
  = [EPathExists "/cfg/token.json"; EReadTokenFile "/cfg/token.json";
     EOpenWrite "token.json"; EBuild "calendar" "v3";
     EPrint "Getting the upcoming 10 events";
     EEventsList {| calendarId := "primary";
                    timeMin := "2024-01-01T00:00:00Z";
                    maxResults := 50;
                    singleEvents := true;
                    orderBy := "startTime" |}]
  /\ result_of (retrieve_calendar_events Scenario.base "someone@x.com")
       Scenario.valid_token_stored
     = result_of (retrieve_calendar_events Scenario.base "primary")
         Scenario.valid_token_stored
  /\ events_of (result_of (retrieve_calendar_events Scenario.base "someone@x.com")
                  Scenario.valid_token_stored)
     = Some Scenario.twelve_events.
Proof.
  destruct (retrieve_calendar_events_ignores_id Scenario.base
              Scenario.valid_token_stored "someone@x.com" "primary")
    as (_ & _ & Hissued).
  destruct (Hissued Scenario.granted
              {| files := <["token.json" := "ya29.granted"]>
                            (files Scenario.valid_token_stored);
                 trace := [EPathExists "/cfg/token.json";
                           EReadTokenFile "/cfg/token.json";
                           EOpenWrite "token.json"] |}
              eq_refl eq_refl) as (Htrace1 & _ & Hresult1 & Hresult2).
  split; [exact Htrace1 |]. split.
  - rewrite Hresult1, Hresult2. reflexivity.
  - rewrite Hresult1. reflexivity.
Defined.

(** C9, as amended: the free/busy tool does not look at the time window.
    For every [time_min] and [time_max], in whatever order, it acquires a
    credential first and, with a credential and a client at hand, sends one
    query whose body carries both as they were given; its result is what
    the upstream answers. *)
Theorem free_busy_window_not_checked
  (w : World) (s s1 : State) (c : Credentials)
  (time_min time_max timezone : string) (ids : list Py.val) :
  get_gcal_credentials w s = (Return c, s1) ->
  build w c = None ->
  let tool := retrieve_calendar_free_busy_slots w time_min time_max timezone ids in
  let query := free_busy_query time_min time_max timezone ids in
  trace_of tool s = (trace s1 ++ [EBuild "calendar" "v3"; EFreeBusyQuery query])%list
  /\ result_of tool s
     = Return (match freebusy_query_execute w query with
               | inr response =>
                   Py.Dict [("result", Py.Str "success"); ("response", response)]
               | inl e => error_dict "response" (Py.Dict []) e
               end)
  /\ (exists items,
         query = Py.Dict [("timeMin", Py.Str time_min); ("timeMax", Py.Str time_max);
                          ("timeZone", Py.Str timezone);
                          ("groupExpansionMax", Py.Int 2);
                          ("calendarExpansionMax", Py.Int 2);
                          ("items", Py.List items)]).
Proof.
  intros Hc Hb tool query. subst tool. unfold trace_of, result_of.
  unfold_tool. rewrite Hc, Hb. cbv beta iota zeta. fold query.
  split; [| split].
  - destruct (freebusy_query_execute w query); cbn;
      rewrite <- !app_assoc; reflexivity.
  - destruct (freebusy_query_execute w query); reflexivity.
  - eexists. reflexivity.
Qed.

Lemma free_busy_window_not_checked_witness :
  let tool := retrieve_calendar_free_busy_slots Scenario.base
                "2024-01-02T00:00:00Z" "2024-01-01T00:00:00Z" "UTC" default_ids in
  trace_of tool Scenario.valid_token_stored
  = [EPathExists "/cfg/token.json"; EReadTokenFile "/cfg/token.json";
     EOpenWrite "token.json"; EBuild "calendar" "v3";
     EFreeBusyQuery (free_busy_query "2024-01-02T00:00:00Z" "2024-01-01T00:00:00Z"
                       "UTC" default_ids)].
Proof.
  apply (free_busy_window_not_checked Scenario.base Scenario.valid_token_stored
           {| files := <["token.json" := "ya29.granted"]>
                         (files Scenario.valid_token_stored);
              trace := [EPathExists "/cfg/token.json";
                        EReadTokenFile "/cfg/token.json";
                        EOpenWrite "token.json"] |}
           Scenario.granted
           "2024-01-02T00:00:00Z" "2024-01-01T00:00:00Z" "UTC" default_ids).
  - vm_compute. reflexivity.
  - reflexivity.
Defined.

(** C9, as stated, fails: a window that ends a day before it starts is not
    rejected; the credential is acquired and the query is sent. *)
Lemma inverted_window_reaches_upstream :
  let time_min := "2024-01-02T00:00:00Z" in
  let time_max := "2024-01-01T00:00:00Z" in
  let tool := retrieve_calendar_free_busy_slots Scenario.base
                time_min time_max "UTC" default_ids in
  String.leb time_max time_min = true
  /\ ~ rejected_up_front Scenario.base Scenario.valid_token_stored
         time_min time_max "UTC" default_ids
  /\ In (EFreeBusyQuery (free_busy_query time_min time_max "UTC" default_ids))
        (trace_of tool Scenario.valid_token_stored)
  /\ exists response,
       result_of tool Scenario.valid_token_stored
       = Return (Py.Dict [("result", Py.Str "success"); ("response", response)]).
Proof.
  cbv zeta. split; [reflexivity |]. split; [| split].
  - intros [Htrace _]. vm_compute in Htrace. discriminate.
  - vm_compute. tauto.
  - eexists. vm_compute. reflexivity.
Qed.

(** C5: a calendar with twelve upcoming instances, on a service that keeps
    to [maxResults].  The tool announces ten events, asks for up to fifty,
    single instances by start time, and returns all twelve. *)
Theorem twelve_upcoming_events_returned :
  let tool := retrieve_calendar_events Scenario.base "primary" in
  let s := Scenario.valid_token_stored in
  events_list_execute Scenario.base = Scenario.calendar_service Scenario.twelve_events
  /\ List.length Scenario.twelve_events = 12%nat
  /\ events_of (result_of tool s) = Some Scenario.twelve_events
  /\ In (EPrint "Getting the upcoming 10 events") (trace_of tool s)
  /\ In (EEventsList {| calendarId := "primary";
                        timeMin := "2024-01-01T00:00:00Z";
                        maxResults := 50;
                        singleEvents := true;
                        orderBy := "startTime" |})
        (trace_of tool s).
Proof.
  cbv zeta. repeat split; try reflexivity; vm_compute; tauto.
Qed.

(** On a service that keeps to [maxResults], the tool returns the first
    fifty upcoming instances, not the first ten. *)
Lemma retrieve_calendar_events_cap
  (w : World) (s s1 : State) (c : Credentials) (id : string) (upcoming : list Py.val) :
  get_gcal_credentials w s = (Return c, s1) ->
  build w c = None ->
  events_list_execute w = Scenario.calendar_service upcoming ->
  events_of (result_of (retrieve_calendar_events w id) s) = Some (take 50 upcoming).
Proof.
  intros Hc Hb Hsvc. unfold result_of. unfold_tool. rewrite Hc, Hb, Hsvc.
  reflexivity.
Qed.

(** ** The directory lookup *)

(** C6: the three outcomes of the directory lookup once the endpoint has
    answered.  Status 200 and a non-empty list: the [email] value of the
    first record as it came, or the sentinel text when the record has no
    such field.  Status 200 and an empty list: the not-found text, which is
    not an error text.  Any other status: the error text with the code. *)
Theorem lookup_registry_email_outcomes
  (w : World) (s : State) (name : string) (response : Response) :
  requests_get w (registry_url name) registry_headers = inr response ->
  let outcome := result_of (lookup_registry_email w name) s in
  (forall record rest,
      status_code response = 200 ->
      json response = inr (Py.List (Py.Dict record :: rest)) ->
      outcome = Return (match Py.dict_lookup "email" record with
                        | Some email => email
                        | None => Py.Str "Email not found in response"
                        end))
  /\ (status_code response = 200 ->
      json response = inr (Py.List []) ->
      outcome = Return (Py.Str ("No results found for '" +:+ name +:+ "'"))
      /\ String.prefix "Error" ("No results found for '" +:+ name +:+ "'") = false)
  /\ (status_code response <> 200 ->
      outcome = Return (Py.Str ("Error: API returned status code "
                                +:+ Py.str_of_int (status_code response)))).
Proof.
  intros Hget outcome. subst outcome. unfold result_of, lookup_registry_email.
  cbv [try_except bind emit lift ret raise]. cbv zeta. rewrite Hget.
  split; [| split].
  - intros record rest Hstatus Hjson. rewrite Hstatus, Hjson. cbn.
    destruct (Py.dict_lookup "email" record); reflexivity.
  - intros Hstatus Hjson. rewrite Hstatus, Hjson. cbn. split; reflexivity.
  - intros Hstatus. apply Z.eqb_neq in Hstatus. rewrite Hstatus. reflexivity.
Qed.

Lemma lookup_registry_email_first_of_two :
  result_of (lookup_registry_email Scenario.base "Jane Doe") Scenario.first_run
  = Return (Py.Str "jane@x.com").
Proof.
  pose proof (lookup_registry_email_outcomes Scenario.base Scenario.first_run
                "Jane Doe" {| status_code := 200; json := inr Scenario.two_records |}
                eq_refl) as [Hfirst _].
  exact (Hfirst _ _ eq_refl eq_refl).
Defined.

Example lookup_registry_email_down :
  result_of (lookup_registry_email Scenario.directory_down "Jane Doe") Scenario.first_run
  = Return (Py.Str "Error: API returned status code 500").
Proof. reflexivity. Qed.

(** ** The result envelope *)

Lemma success_dict_two_state (key : string) (p : Py.val) :
  String.eqb key "result" = false ->
  exists env,
    envelope_of key (Py.Dict [("result", Py.Str "success"); (key, p)]) = Some env
    /\ status env = success
    /\ two_state env.
Proof.
  intros Hkey. eexists. unfold envelope_of. cbn [Py.dict_lookup].
  rewrite Hkey, !String.eqb_refl. cbn.
  split; [reflexivity |]. split; [reflexivity |]. left. split; reflexivity.
Qed.

(** Closes a goal on a tool that has come to one of its [return]s. *)
Ltac envelope_leaf :=
  cbn [fst result_of];
  first
    [ lazymatch goal with
      | |- exists v env, Return (Py.Dict [("result", Py.Str "success"); (?key, ?p)]) = _ /\ _ =>
          destruct (success_dict_two_state key p eq_refl) as (env & Henv & _ & Htwo);
          exists (Py.Dict [("result", Py.Str "success"); (key, p)]), env
      end
    | lazymatch goal with
      | |- exists v env, Return (Py.Dict [("result", an_error_occurred ?e); (?key, ?empty)]) = _ /\ _ =>
          destruct (error_dict_two_state key empty e eq_refl
                      ltac:(first [ left; reflexivity
                                  | right; left; reflexivity
                                  | right; right; reflexivity ]))
            as (env & Henv & _ & Htwo);
          exists (error_dict key empty e), env
      end ];
  split; [reflexivity | split; assumption].

(** C1, as amended: each of the four tools that return a dict keeps the
    two-state envelope, the timezone tool like the three calendar tools: a
    call returns, without raising, a dict whose [result] is either the text
    [success], or a non-empty diagnostic next to an empty payload. *)
Theorem dict_tools_keep_envelope (w : World) :
  (forall tz1 tz2, keeps_envelope "delta" (get_timezone_difference w tz1 tz2))
  /\ (forall id, keeps_envelope "events" (retrieve_calendar_events w id))
  /\ (forall time_min time_max timezone ids,
         keeps_envelope "response"
           (retrieve_calendar_free_busy_slots w time_min time_max timezone ids))
  /\ (forall calendar_id, keeps_envelope "response" (retrieve_timezone w calendar_id)).
Proof.
  split; [| split; [| split]].
  - intros tz1 tz2 s. unfold result_of, get_timezone_difference, utcoffset.
    unfold_tool.
    destruct (ZoneInfo w tz1) as [e1 | z1]; cbv beta iota zeta;
      [envelope_leaf |].
    destruct (ZoneInfo w tz2) as [e2 | z2]; cbv beta iota zeta; envelope_leaf.
  - intros id s. unfold result_of. unfold_tool.
    destruct (get_gcal_credentials w s) as [[c | e] s1]; cbv beta iota zeta;
      [| envelope_leaf].
    destruct (build w c) as [e |]; cbv beta iota zeta; [envelope_leaf |].
    destruct (events_list_execute w _) as [e | events_result];
      cbv beta iota zeta; [envelope_leaf |].
    destruct events_result; cbv [py_get ret raise]; cbv beta iota zeta;
      envelope_leaf.
  - intros time_min time_max timezone ids s. unfold result_of. unfold_tool.
    destruct (get_gcal_credentials w s) as [[c | e] s1]; cbv beta iota zeta;
      [| envelope_leaf].
    destruct (build w c) as [e |]; cbv beta iota zeta; [envelope_leaf |].
    destruct (freebusy_query_execute w _) as [e | response];
      cbv beta iota zeta; envelope_leaf.
  - intros calendar_id s. unfold result_of. unfold_tool.
    destruct (get_gcal_credentials w s) as [[c | e] s1]; cbv beta iota zeta;
      [| envelope_leaf].
    destruct (build w c) as [e |]; cbv beta iota zeta; [envelope_leaf |].
    destruct (calendars_get_execute w _) as [e | response];
      cbv beta iota zeta; envelope_leaf.
Qed.

(** C1, as stated, fails on the directory lookup: what it returns is a
    string, with no field for a status, so it reads as no envelope under any
    payload key. *)
Lemma lookup_result_is_no_envelope :
  ~ exists key, keeps_envelope key (lookup_registry_email Scenario.base "Jane Doe").
Proof.
  intros [key Hkeeps].
  destruct (Hkeeps Scenario.first_run) as (v & env & Hv & Henv & _).
  vm_compute in Hv. inversion Hv; subst v. discriminate Henv.
Qed.

(** Nor can the string be read as one: a failure of the endpoint and a
    record that holds the same text give the same result. *)
Example lookup_failure_and_match_alike :
  result_of (lookup_registry_email Scenario.directory_down "Jane Doe") Scenario.first_run
  = result_of (lookup_registry_email Scenario.directory_odd "Jane Doe") Scenario.first_run.
Proof. reflexivity. Qed.

(** ** The timezone difference *)

Section Float.

Let prec := Py.prec.
Let emax := Py.emax.

Lemma binary_round_aux_opp (s : bool) (m e : Z) (l : location) :
  binary_round_aux prec emax (negb s) m e l
  = SFopp (binary_round_aux prec emax s m e l).
Proof.
  unfold binary_round_aux.
  destruct (shr_fexp prec emax m e l) as [mrs' e'].
  destruct (shr_fexp prec emax _ e' loc_Exact) as [mrs'' e''].
  destruct (shr_m mrs''); [reflexivity | | reflexivity].
  destruct (Z.leb e'' (emax - prec)); reflexivity.
Qed.

Lemma shr_1_nonneg (mrs : shr_record) : 0 <= shr_m mrs -> 0 <= shr_m (shr_1 mrs).
Proof.
  destruct mrs as [m r s]. destruct m as [| [p | p |] | [p | p |]]; simpl; lia.
Qed.

Lemma iter_shr_1_nonneg (p : positive) :
  forall mrs, 0 <= shr_m mrs -> 0 <= shr_m (SpecFloat.iter_pos shr_1 p mrs).
Proof.
  induction p as [p IH | p IH |]; intros mrs H; simpl.
  - apply IH, IH, shr_1_nonneg, H.
  - apply IH, IH, H.
  - apply shr_1_nonneg, H.
Qed.

Lemma shr_fexp_nonneg (m e : Z) (l : location) :
  0 <= m -> 0 <= shr_m (fst (shr_fexp prec emax m e l)).
Proof.
  intros H. unfold shr_fexp, shr.
  assert (Hm : 0 <= shr_m (shr_record_of_loc m l)) by (destruct l as [| []]; exact H).
  destruct (fexp prec emax (Zdigits2 m + e) - e); simpl; auto.
  apply iter_shr_1_nonneg, Hm.
Qed.

Lemma round_nearest_even_nonneg (m : Z) (l : location) :
  0 <= m -> 0 <= round_nearest_even m l.
Proof.
  intros H. destruct l as [| []]; simpl; try lia.
  destruct (Z.even m); lia.
Qed.

(** Rounding a non-negative mantissa never gives a NaN. *)
Lemma binary_round_aux_not_nan (s : bool) (m e : Z) (l : location) :
  0 <= m -> binary_round_aux prec emax s m e l <> S754_nan.
Proof.
  intros H. unfold binary_round_aux.
  pose proof (shr_fexp_nonneg m e l H) as H1.
  destruct (shr_fexp prec emax m e l) as [mrs' e']. simpl in H1.
  pose proof (shr_fexp_nonneg _ e' loc_Exact
                (round_nearest_even_nonneg _ (loc_of_shr_record mrs') H1)) as H2.
  destruct (shr_fexp prec emax _ e' loc_Exact) as [mrs'' e'']. simpl in H2.
  destruct (shr_m mrs''); [discriminate | | lia].
  destruct (Z.leb e'' (emax - prec)); discriminate.
Qed.

Lemma float_of_int_not_nan (n : Z) : Py.float_of_int n <> S754_nan.
Proof.
  unfold Py.float_of_int, binary_normalize, binary_round.
  destruct n as [| p | p]; [discriminate | |];
    destruct (shl_align p 0 _) as [mz ez];
    apply binary_round_aux_not_nan; lia.
Qed.

Lemma float_of_int_opp (n : Z) :
  n <> 0 -> Py.float_of_int (- n) = Py.float_neg (Py.float_of_int n).
Proof.
  intros Hn. unfold Py.float_of_int, Py.float_neg, binary_normalize, binary_round.
  destruct n as [| p | p]; [contradiction | |].
  - change (- Z.pos p) with (Z.neg p). cbv beta iota.
    destruct (shl_align p 0 _) as [mz ez]. apply (binary_round_aux_opp false).
  - change (- Z.neg p) with (Z.pos p). cbv beta iota.
    destruct (shl_align p 0 _) as [mz ez]. apply (binary_round_aux_opp true).
Qed.

Lemma float_div_opp (x y : Py.float) :
  Py.float_div (Py.float_neg x) y = Py.float_neg (Py.float_div x y).
Proof.
  unfold Py.float_div, Py.float_neg.
  destruct x as [sx | sx | | sx mx ex], y as [sy | sy | | sy my ey]; simpl;
    try reflexivity; try (destruct sx, sy; reflexivity).
  destruct (SFdiv_core_binary Py.prec Py.emax (Z.pos mx) ex (Z.pos my) ey)
    as [[mz ez] lz].
  replace (xorb (negb sx) sy) with (negb (xorb sx sy)) by (destruct sx, sy; reflexivity).
  apply binary_round_aux_opp.
Qed.

(** Dividing by a finite number other than zero never gives a NaN. *)
Lemma float_div_not_nan (x : Py.float) (sy : bool) (my : positive) (ey : Z) :
  x <> S754_nan -> Py.float_div x (S754_finite sy my ey) <> S754_nan.
Proof.
  intros Hx. unfold Py.float_div.
  destruct x as [sx | sx | | sx mx ex]; simpl; try discriminate; [contradiction |].
  unfold SFdiv_core_binary.
  set (m' := match _ - _ - _ with Z0 => _ | Zpos _ => _ | Zneg _ => _ end).
  assert (Hm' : 0 <= m').
  { subst m'. destruct (_ - _ - _); try lia. apply Z.shiftl_nonneg. lia. }
  pose proof (Z.div_pos m' (Z.pos my) Hm' ltac:(lia)) as Hq.
  unfold Z.div in Hq. destruct (Z.div_eucl m' (Z.pos my)) as [q r]. simpl in Hq.
  apply binary_round_aux_not_nan, Hq.
Qed.

(** [x == x] holds for every float but NaN. *)
Lemma float_eq_refl (x : Py.float) : x <> S754_nan -> Py.float_eq x x = true.
Proof.
  intros Hx. unfold Py.float_eq, SFeqb, SFcompare.
  destruct x as [s | s | | s m e]; [reflexivity | destruct s; reflexivity
                                   | contradiction |].
  rewrite Z.compare_refl, Pos.compare_cont_refl. destruct s; reflexivity.
Qed.

Lemma float_neg_involutive (x : Py.float) : Py.float_neg (Py.float_neg x) = x.
Proof. destruct x; simpl; rewrite ?negb_involutive; reflexivity. Qed.

End Float.

(** The hours of a difference and of its opposite are opposite floats. *)
Lemma hours_opp (n : Z) :
  n <> 0 ->
  Py.float_div (total_seconds (- n)) (Py.float_of_int 3600)
  = Py.float_neg (Py.float_div (total_seconds n) (Py.float_of_int 3600)).
Proof.
  intros Hn. unfold total_seconds, int_truediv.
  rewrite (float_of_int_opp n Hn), !float_div_opp. reflexivity.
Qed.

Lemma hours_not_nan (n : Z) :
  Py.float_div (total_seconds n) (Py.float_of_int 3600) <> S754_nan.
Proof.
  unfold total_seconds, int_truediv.
  assert (H3600 : exists m e, Py.float_of_int 3600 = S754_finite false m e)
    by (vm_compute; eauto).
  assert (Hmega : exists m e, Py.float_of_int 1000000 = S754_finite false m e)
    by (vm_compute; eauto).
  destruct H3600 as (m1 & e1 & ->), Hmega as (m2 & e2 & ->).
  apply float_div_not_nan, float_div_not_nan, float_of_int_not_nan.
Qed.

Lemma hours_antisymmetric (n : Z) :
  Py.float_eq (Py.float_div (total_seconds n) (Py.float_of_int 3600))
    (Py.float_neg (Py.float_div (total_seconds (- n)) (Py.float_of_int 3600)))
  = true.
Proof.
  destruct (Z.eq_dec n 0) as [-> | Hn]; [vm_compute; reflexivity |].
  rewrite (hours_opp n Hn), float_neg_involutive.
  apply float_eq_refl, hours_not_nan.
Qed.

(** C7: for two zones that the zone database knows, read at the same
    instant, the two directions of the tool give opposite [delta]s under the
    equality of floats, and a zone against itself gives zero. *)
Theorem timezone_difference_antisymmetric
  (w : World) (s s' : State) (tz1 tz2 : string) (zone1 zone2 : Instant -> Z) :
  ZoneInfo w tz1 = inr zone1 ->
  ZoneInfo w tz2 = inr zone2 ->
  exists d12 d21 d11,
    result_of (get_timezone_difference w tz1 tz2) s
    = Return (Py.Dict [("result", Py.Str "success"); ("delta", Py.Float d12)])
    /\ result_of (get_timezone_difference w tz2 tz1) s'
       = Return (Py.Dict [("result", Py.Str "success"); ("delta", Py.Float d21)])
    /\ result_of (get_timezone_difference w tz1 tz1) s
       = Return (Py.Dict [("result", Py.Str "success"); ("delta", Py.Float d11)])
    /\ Py.float_eq d12 (Py.float_neg d21) = true
    /\ Py.float_eq d11 (Py.float_of_int 0) = true.
Proof.
  intros H1 H2.
  unfold result_of, get_timezone_difference, utcoffset.
  cbv [try_or_return try_except bind lift ret raise]. rewrite H1, H2.
  cbv beta iota zeta. cbn [fst].
  eexists _, _, _.
  split; [reflexivity |]. split; [reflexivity |]. split; [reflexivity |].
  split.
  - replace (timedelta_sub (timedelta_seconds (zone1 (now w)))
               (timedelta_seconds (zone2 (now w))))
      with (- timedelta_sub (timedelta_seconds (zone2 (now w)))
                (timedelta_seconds (zone1 (now w))))
      by (unfold timedelta_sub; lia).
    apply hours_antisymmetric.
  - unfold timedelta_sub. rewrite Z.sub_diag. vm_compute. reflexivity.
Qed.

Lemma timezone_difference_kolkata :
  exists d12 d21 d11,
    result_of (get_timezone_difference Scenario.base "UTC" "Asia/Kolkata")
      Scenario.first_run
    = Return (Py.Dict [("result", Py.Str "success"); ("delta", Py.Float d12)])
    /\ result_of (get_timezone_difference Scenario.base "Asia/Kolkata" "UTC")
         Scenario.first_run
       = Return (Py.Dict [("result", Py.Str "success"); ("delta", Py.Float d21)])
    /\ result_of (get_timezone_difference Scenario.base "UTC" "UTC")
         Scenario.first_run
       = Return (Py.Dict [("result", Py.Str "success"); ("delta", Py.Float d11)])
    /\ Py.float_eq d12 (Py.float_neg d21) = true
    /\ Py.float_eq d11 (Py.float_of_int 0) = true.
Proof.
  apply (timezone_difference_antisymmetric Scenario.base Scenario.first_run
           Scenario.first_run "UTC" "Asia/Kolkata" (fun _ => 0) (fun _ => 19800));
    reflexivity.
Defined.

(** Five and a half hours from UTC to Kolkata: [11 * 2^-1]. *)
Example timezone_difference_kolkata_hours :
  delta_of (result_of (get_timezone_difference Scenario.base "UTC" "Asia/Kolkata")
              Scenario.first_run)
  = Some (S754_finite false 6192449487634432 (-50)).
Proof. reflexivity. Qed.

(** An unknown zone gives the error-state dict, with no [delta]. *)
Example timezone_difference_unknown_zone :
  result_of (get_timezone_difference Scenario.base "UTC" "Mars/Phobos")
    Scenario.first_run
  = Return (Py.Dict [("result",
                      Py.Str "An error occurred: 'No time zone found with key Mars/Phobos'");
                     ("delta", Py.None_)]).
Proof. reflexivity. Qed.

(** * Further properties of the code *)

(** ** Credential acquisition, path by path *)

(** X1: the only file acquisition ever changes is [token.json], and only
    when it succeeds; an acquisition that raises leaves every file as it
    was. *)
Theorem get_gcal_credentials_files (w : World) (s : State) :
  files_of (get_gcal_credentials w) s
  = match result_of (get_gcal_credentials w) s with
    | Return c => <["token.json" := to_json w c]> (files s)
    | Raise _ => files s
    end.
Proof.
  unfold files_of, result_of.
  destruct (get_gcal_credentials w s) as [r s'] eqn:H. cbn [fst snd].
  unfold_acquisition H. world_cases H; inversion H; subst; reflexivity.
Qed.

(** Unfolds acquisition in the goal, with both paths of the environment. *)
Ltac run_acquisition Htp Hcp :=
  cbv [get_gcal_credentials write_text from_client_secrets_file
       from_authorized_user_file os_path_exists environ_getitem
       bind try_except ret raise emit lift lift_unit get_files put_file];
  rewrite Htp, Hcp; cbn [fst snd files trace].

(** X2: a valid token at the token path is returned as it was loaded: no
    refresh exchange, no interactive flow, and the credential is written to
    [token.json]. *)
Theorem valid_token_is_reused
  (w : World) (s : State) (token_path : string) (content : string) (c : Credentials) :
  environ w !! "GCAL_TOKEN_PATH" = Some token_path ->
  is_Some (environ w !! "GCAL_CREDENTIALS_PATH") ->
  files s !! token_path = Some content ->
  from_authorized_user_info w content SCOPES = inr c ->
  valid c = true ->
  open_w w "token.json" = None ->
  get_gcal_credentials w s
  = (Return c,
     {| files := <["token.json" := to_json w c]> (files s);
        trace := (trace s ++ [EPathExists token_path; EReadTokenFile token_path;
                              EOpenWrite "token.json"])%list |}).
Proof.
  intros Htp [cp Hcp] Hfile Hload Hvalid Hopen.
  run_acquisition Htp Hcp.
  rewrite Hfile. rewrite bool_decide_eq_true_2 by eauto.
  cbn [files trace]. rewrite Hfile, Hload. cbn [files trace].
  rewrite Hvalid. cbn [negb files trace]. rewrite Hopen.
  cbn [files trace]. rewrite <- !app_assoc. reflexivity.
Qed.

Lemma valid_token_is_reused_witness :
  get_gcal_credentials Scenario.base Scenario.valid_token_stored
  = (Return Scenario.granted,
     {| files := <["token.json" := "ya29.granted"]> (files Scenario.valid_token_stored);
        trace := [EPathExists "/cfg/token.json"; EReadTokenFile "/cfg/token.json";
                  EOpenWrite "token.json"] |}).
Proof.
  apply (valid_token_is_reused Scenario.base Scenario.valid_token_stored
           "/cfg/token.json" "valid-token" Scenario.granted); try reflexivity.
  exists "/cfg/credentials.json". reflexivity.
Defined.

(** X3: an expired token with a refresh token is refreshed, and when the
    exchange succeeds the refreshed credential is returned and written to
    [token.json], with no interactive flow. *)
Theorem expired_token_is_refreshed
  (w : World) (s : State) (token_path : string) (content : string)
  (c c' : Credentials) :
  environ w !! "GCAL_TOKEN_PATH" = Some token_path ->
  is_Some (environ w !! "GCAL_CREDENTIALS_PATH") ->
  files s !! token_path = Some content ->
  from_authorized_user_info w content SCOPES = inr c ->
  valid c = false ->
  expired c = true ->
  truthy_str (refresh_token c) = true ->
  refresh w c = inr c' ->
  open_w w "token.json" = None ->
  get_gcal_credentials w s
  = (Return c',
     {| files := <["token.json" := to_json w c']> (files s);
        trace := (trace s ++ [EPathExists token_path; EReadTokenFile token_path;
                              ERefresh c; EOpenWrite "token.json"])%list |}).
Proof.
  intros Htp [cp Hcp] Hfile Hload Hvalid Hexp Hrt Hrefresh Hopen.
  run_acquisition Htp Hcp.
  rewrite Hfile. rewrite bool_decide_eq_true_2 by eauto.
  cbn [files trace]. rewrite Hfile, Hload. cbn [files trace].
  rewrite Hvalid, Hexp, Hrt. cbn [negb andb files trace]. rewrite Hrefresh.
  cbn [files trace]. rewrite Hopen.
  cbn [files trace]. rewrite <- !app_assoc. reflexivity.
Qed.

Lemma expired_token_is_refreshed_witness :
  get_gcal_credentials Scenario.base Scenario.stale_token_stored
  = (Return Scenario.refreshed,
     {| files := <["token.json" := "ya29.refreshed"]> (files Scenario.stale_token_stored);
        trace := [EPathExists "/cfg/token.json"; EReadTokenFile "/cfg/token.json";
                  ERefresh Scenario.stale; EOpenWrite "token.json"] |}).
Proof.
  apply (expired_token_is_refreshed Scenario.base Scenario.stale_token_stored
           "/cfg/token.json" "stale-token" Scenario.stale Scenario.refreshed);
    try reflexivity.
  exists "/cfg/credentials.json". reflexivity.
Defined.

(** Settles a statement about which calls a concrete trace holds. *)
Ltac in_trace H :=
  simpl in H;
  repeat match type of H with
         | _ \/ _ => destruct H as [H | H]
         end;
  try contradiction; try discriminate H.

Ltac decision_leaf :=
  eexists; split; [cbn [files trace snd]; rewrite <- ?app_assoc; reflexivity |];
  unfold refresh_attempted, login_started; split; split;
  [ intros [cX Hin]; in_trace Hin;
    try (inversion Hin; subst; eexists; repeat split; solve [eauto])
  | intros (cX & Hst & Hv & He & Hr); try discriminate Hst;
    inversion Hst; subst; try congruence;
    eexists; simpl; solve [eauto 10]
  | intros (eX & Hin & HeX); in_trace Hin; subst eX;
    try contradiction;
    first [ left; reflexivity
          | right; eexists; split; [reflexivity |]; split; [assumption |];
            first [left; assumption | right; assumption] ]
  | intros [Hst | (cX & Hst & Hv & Hor)]; try discriminate Hst;
    try (inversion Hst; subst; destruct Hor; congruence);
    lazymatch goal with
    | |- exists e, In e ?t /\ _ =>
        lazymatch t with
        | context [EReadClientSecrets ?p] =>
            exists (EReadClientSecrets p); split; [simpl; tauto | exact I]
        end
    end ].

(** The ways through the interactive flow. *)
Ltac login_cases w s cp :=
  destruct (files s !! cp) as [? |]; cbn [files trace]; [| decision_leaf];
  destruct (from_client_config w _ SCOPES) as [? | ?];
    cbn [files trace]; [decision_leaf |];
  destruct (run_local_server w _); cbn [files trace]; [decision_leaf |];
  destruct (open_w w "token.json"); cbn [files trace]; decision_leaf.

(** X4: which way acquisition goes, once both paths are configured.  A
    refresh exchange is attempted exactly when the token file loads as a
    credential that is not valid, has expired and has a refresh token; the
    interactive flow is started exactly when there is no token file, or the
    loaded credential is not valid and cannot be refreshed. *)
Theorem acquisition_decision
  (w : World) (s : State) (token_path : string) :
  environ w !! "GCAL_TOKEN_PATH" = Some token_path ->
  is_Some (environ w !! "GCAL_CREDENTIALS_PATH") ->
  exists t,
    trace_of (get_gcal_credentials w) s = (trace s ++ t)%list
    /\ (refresh_attempted t
        <-> exists c, stored w s token_path = Loaded c
                      /\ valid c = false /\ expired c = true
                      /\ truthy_str (refresh_token c) = true)
    /\ (login_started t
        <-> stored w s token_path = NoToken
            \/ exists c, stored w s token_path = Loaded c
                         /\ valid c = false
                         /\ (expired c = false
                             \/ truthy_str (refresh_token c) = false)).
Proof.
  intros Htp [cp Hcp]. unfold trace_of, stored.
  run_acquisition Htp Hcp.
  destruct (files s !! token_path) as [content |] eqn:Hfile.
  - rewrite bool_decide_eq_true_2 by eauto. cbn [files trace]. rewrite Hfile.
    destruct (from_authorized_user_info w content SCOPES) as [e | c] eqn:Hload;
      cbn [files trace]; [decision_leaf |].
    destruct (valid c) eqn:Hvalid; cbn [negb files trace].
    + destruct (open_w w "token.json"); cbn [files trace]; decision_leaf.
    + destruct (expired c) eqn:Hexp, (truthy_str (refresh_token c)) eqn:Hrt;
        cbn [andb files trace].
      * destruct (refresh w c); cbn [files trace]; [decision_leaf |].
        destruct (open_w w "token.json"); cbn [files trace]; decision_leaf.
      * login_cases w s cp.
      * login_cases w s cp.
      * login_cases w s cp.
  - rewrite bool_decide_eq_false_2 by (intros [? ?]; discriminate).
    cbn [files trace]. login_cases w s cp.
Qed.

Lemma acquisition_decision_witness :
  exists t,
    trace_of (get_gcal_credentials Scenario.base) Scenario.first_run
    = (trace Scenario.first_run ++ t)%list
    /\ (refresh_attempted t
        <-> exists c, stored Scenario.base Scenario.first_run "/cfg/token.json" = Loaded c
                      /\ valid c = false /\ expired c = true
                      /\ truthy_str (refresh_token c) = true)
    /\ (login_started t
        <-> stored Scenario.base Scenario.first_run "/cfg/token.json" = NoToken
            \/ exists c, stored Scenario.base Scenario.first_run "/cfg/token.json" = Loaded c
                         /\ valid c = false
                         /\ (expired c = false
                             \/ truthy_str (refresh_token c) = false)).
Proof.
  apply (acquisition_decision Scenario.base Scenario.first_run "/cfg/token.json").
  - reflexivity.
  - exists "/cfg/credentials.json". reflexivity.
Defined.

(** X5: with no token file and no client-secret descriptor at the
    configured path, acquisition raises [FileNotFoundError] for that path
    before the interactive flow reaches the browser, and writes nothing. *)
Theorem missing_client_secrets
  (w : World) (s : State) (token_path secrets_path : string) :
  environ w !! "GCAL_TOKEN_PATH" = Some token_path ->
  environ w !! "GCAL_CREDENTIALS_PATH" = Some secrets_path ->
  files s !! token_path = None ->
  files s !! secrets_path = None ->
  get_gcal_credentials w s
  = (Raise (Py.FileNotFoundError secrets_path),
     {| files := files s;
        trace := (trace s ++ [EPathExists token_path;
                              EReadClientSecrets secrets_path])%list |}).
Proof.
  intros Htp Hcp Hfile Hsecret.
  run_acquisition Htp Hcp.
  rewrite Hfile. rewrite bool_decide_eq_false_2 by (intros [? ?]; discriminate).
  cbn [files trace]. rewrite Hsecret.
  cbn [files trace]. rewrite <- !app_assoc. reflexivity.
Qed.

Lemma missing_client_secrets_witness :
  get_gcal_credentials Scenario.base {| files := ∅; trace := [] |}
  = (Raise (Py.FileNotFoundError "/cfg/credentials.json"),
     {| files := ∅;
        trace := [EPathExists "/cfg/token.json";
                  EReadClientSecrets "/cfg/credentials.json"] |}).
Proof.
  apply (missing_client_secrets Scenario.base {| files := ∅; trace := [] |}
           "/cfg/token.json" "/cfg/credentials.json"); reflexivity.
Defined.

(** X6: a token file that does not load makes acquisition raise what the
    loader raised; there is no fall-back to the interactive flow, and
    nothing is written. *)
Theorem unreadable_token_propagates
  (w : World) (s : State) (token_path content : string) (e : Py.exn) :
  environ w !! "GCAL_TOKEN_PATH" = Some token_path ->
  is_Some (environ w !! "GCAL_CREDENTIALS_PATH") ->
  files s !! token_path = Some content ->
  from_authorized_user_info w content SCOPES = inl e ->
  get_gcal_credentials w s
  = (Raise e,
     {| files := files s;
        trace := (trace s ++ [EPathExists token_path;
                              EReadTokenFile token_path])%list |}).
Proof.
  intros Htp [cp Hcp] Hfile Hload.
  run_acquisition Htp Hcp.
  rewrite Hfile. rewrite bool_decide_eq_true_2 by eauto.
  cbn [files trace]. rewrite Hfile, Hload.
  cbn [files trace]. rewrite <- !app_assoc. reflexivity.
Qed.

(** X7: when [token.json] cannot be opened for writing, acquisition never
    succeeds, not even with a valid token in place: whatever the state, it
    raises, and each calendar tool answers with its error dict. *)
Theorem unwritable_token_json (w : World) (e : Py.exn) :
  open_w w "token.json" = Some e ->
  forall s,
    exists e',
      result_of (get_gcal_credentials w) s = Raise e'
      /\ (forall id,
             result_of (retrieve_calendar_events w id) s
             = Return (error_dict "events" (Py.List []) e'))
      /\ (forall time_min time_max timezone ids,
             result_of (retrieve_calendar_free_busy_slots w time_min time_max
                          timezone ids) s
             = Return (error_dict "response" (Py.Dict []) e'))
      /\ (forall calendar_id,
             result_of (retrieve_timezone w calendar_id) s
             = Return (error_dict "response" (Py.Dict []) e')).
Proof.
  intros Hopen s.
  assert (Hacq : exists e', result_of (get_gcal_credentials w) s = Raise e').
  { unfold result_of.
    destruct (get_gcal_credentials w s) as [r s'] eqn:H. cbn [fst].
    unfold_acquisition H. rewrite Hopen in H.
    world_cases H; inversion H; subst; eauto. }
  destruct Hacq as [e' He']. exists e'. split; [exact He' |].
  unfold result_of in *.
  destruct (get_gcal_credentials w s) as [r s'] eqn:H. cbn [fst] in He'. subst r.
  repeat split; intros; unfold_tool; rewrite H; reflexivity.
Qed.

Lemma unreadable_token_witness :
  get_gcal_credentials Cases.garbled Scenario.valid_token_stored
  = (Raise Cases.not_json,
     {| files := files Scenario.valid_token_stored;
        trace := [EPathExists "/cfg/token.json"; EReadTokenFile "/cfg/token.json"] |}).
Proof.
  apply (unreadable_token_propagates Cases.garbled Scenario.valid_token_stored
           "/cfg/token.json" "valid-token" Cases.not_json); try reflexivity.
  exists "/cfg/credentials.json". reflexivity.
Defined.

Lemma unwritable_token_json_witness :
  exists e',
    result_of (get_gcal_credentials Cases.read_only) Scenario.valid_token_stored
    = Raise e'
    /\ (forall id,
           result_of (retrieve_calendar_events Cases.read_only id)
             Scenario.valid_token_stored
           = Return (error_dict "events" (Py.List []) e'))
    /\ (forall time_min time_max timezone ids,
           result_of (retrieve_calendar_free_busy_slots Cases.read_only
                        time_min time_max timezone ids) Scenario.valid_token_stored
           = Return (error_dict "response" (Py.Dict []) e'))
    /\ (forall calendar_id,
           result_of (retrieve_timezone Cases.read_only calendar_id)
             Scenario.valid_token_stored
           = Return (error_dict "response" (Py.Dict []) e')).
Proof.
  apply (unwritable_token_json Cases.read_only Cases.denied).
  reflexivity.
Defined.

(** What a successful acquisition tells about the world. *)
Lemma get_gcal_credentials_success (w : World) (s s' : State) (c : Credentials) :
  get_gcal_credentials w s = (Return c, s') ->
  open_w w "token.json" = None
  /\ is_Some (environ w !! "GCAL_TOKEN_PATH")
  /\ is_Some (environ w !! "GCAL_CREDENTIALS_PATH").
Proof.
  intros H. unfold_acquisition H. world_cases H;
    try discriminate; inversion H; subst; eauto.
Qed.

(** X8: when the token path is [token.json] itself, what one acquisition
    writes the next one reads.  After a successful acquisition of a
    credential that loads back valid from its own serialization, a second
    acquisition returns the same credential from the file: no refresh
    exchange, no interactive flow, and the files stay as they are. *)
Theorem token_json_round_trip (w : World) (s s1 : State) (c : Credentials) :
  environ w !! "GCAL_TOKEN_PATH" = Some "token.json" ->
  get_gcal_credentials w s = (Return c, s1) ->
  from_authorized_user_info w (to_json w c) SCOPES = inr c ->
  valid c = true ->
  get_gcal_credentials w s1
  = (Return c,
     {| files := files s1;
        trace := (trace s1 ++ [EPathExists "token.json"; EReadTokenFile "token.json";
                               EOpenWrite "token.json"])%list |}).
Proof.
  intros Htp Hfirst Hload Hvalid.
  destruct (get_gcal_credentials_success w s s1 c Hfirst) as (Hopen & _ & [cp Hcp]).
  pose proof (get_gcal_credentials_writes w s s1 c Hfirst) as Hfiles.
  assert (Hfile : files s1 !! "token.json" = Some (to_json w c))
    by (rewrite Hfiles; apply lookup_insert_eq).
  run_acquisition Htp Hcp.
  rewrite Hfile. rewrite bool_decide_eq_true_2 by eauto.
  cbn [files trace]. rewrite Hfile, Hload. cbn [files trace].
  rewrite Hvalid. cbn [negb files trace]. rewrite Hopen.
  cbn [files trace]. rewrite <- !app_assoc.
  rewrite (insert_id (files s1) "token.json" (to_json w c) Hfile). reflexivity.
Qed.

Lemma token_json_round_trip_witness :
  get_gcal_credentials Cases.token_in_cwd Cases.after_first_run
  = (Return Scenario.granted,
     {| files := files Cases.after_first_run;
        trace := (trace Cases.after_first_run
                  ++ [EPathExists "token.json"; EReadTokenFile "token.json";
                      EOpenWrite "token.json"])%list |}).
Proof.
  apply (token_json_round_trip Cases.token_in_cwd Scenario.first_run
           Cases.after_first_run Scenario.granted); reflexivity.
Defined.

(** ** The calendar tools, after acquisition *)

(** The calls a tool has made once it has come to a [return]. *)
Ltac no_client_call :=
  exists []; rewrite app_nil_r; cbn; repeat constructor.

Ltac client_calls :=
  cbn [fst snd files trace]; eexists;
  (split; [rewrite <- ?app_assoc; reflexivity |]);
  cbn; repeat constructor.

(** X9: every call of a calendar tool runs acquisition first, then makes
    client calls only, at most one of them a request to the calendar
    service (no retry, no second page), and it changes no file beyond what
    acquisition did. *)
Theorem calendar_tools_one_request (w : World) (s : State) :
  let after_acquisition (tool : M Py.val) :=
    exists t,
      trace_of tool s = (trace_of (get_gcal_credentials w) s ++ t)%list
      /\ Forall client_call t
      /\ (List.length (List.filter execute_call t) <= 1)%nat
      /\ files_of tool s = files_of (get_gcal_credentials w) s in
  (forall id, after_acquisition (retrieve_calendar_events w id))
  /\ (forall time_min time_max timezone ids,
         after_acquisition
           (retrieve_calendar_free_busy_slots w time_min time_max timezone ids))
  /\ (forall calendar_id, after_acquisition (retrieve_timezone w calendar_id)).
Proof.
  cbv zeta. unfold trace_of, files_of.
  split; [| split]; intros; unfold_tool;
    (destruct (get_gcal_credentials w s) as [[c | e] s1]; cbv beta iota zeta;
     cbn [fst snd]; [| no_client_call]);
    (destruct (build w c); cbv beta iota zeta; [client_calls |]).
  - destruct (events_list_execute w _) as [e | r]; cbv beta iota zeta;
      [| destruct r; cbv [py_get ret raise]; cbv beta iota zeta];
      client_calls.
  - destruct (freebusy_query_execute w _) as [e | r]; cbv beta iota zeta;
      client_calls.
  - destruct (calendars_get_execute w _) as [e | r]; cbv beta iota zeta;
      client_calls.
Qed.

(** X10: the events tool hands on what the service answered.  With a
    credential and a client at hand, an answer that is a dict gives
    [success] with its [items] as they came, not cut, not reordered, and the
    empty list when there is no [items]; an answer that is no dict gives
    the error dict of the [AttributeError]. *)
Theorem retrieve_calendar_events_items
  (w : World) (s s1 : State) (c : Credentials) (id : string) (events_result : Py.val) :
  get_gcal_credentials w s = (Return c, s1) ->
  build w c = None ->
  events_list_execute w {| calendarId := "primary";
                           timeMin := now_isoformat w +:+ "Z";
                           maxResults := 50;
                           singleEvents := true;
                           orderBy := "startTime" |} = inr events_result ->
  result_of (retrieve_calendar_events w id) s
  = Return (match events_result with
            | Py.Dict d =>
                Py.Dict [("result", Py.Str "success");
                         ("events", match Py.dict_lookup "items" d with
                                    | Some items => items
                                    | None => Py.List []
                                    end)]
            | _ => error_dict "events" (Py.List [])
                     (Py.AttributeError events_result "get")
            end).
Proof.
  intros Hc Hb He. unfold result_of. unfold_tool. rewrite Hc, Hb.
  cbv beta iota zeta. rewrite He.
  destruct events_result; reflexivity.
Qed.

Lemma retrieve_calendar_events_items_witness :
  result_of (retrieve_calendar_events Scenario.base "someone@x.com")
    Scenario.valid_token_stored
  = Return (Py.Dict [("result", Py.Str "success");
                     ("events", Py.List Scenario.twelve_events)]).
Proof.
  apply (retrieve_calendar_events_items Scenario.base Scenario.valid_token_stored
           {| files := <["token.json" := "ya29.granted"]>
                         (files Scenario.valid_token_stored);
              trace := [EPathExists "/cfg/token.json";
                        EReadTokenFile "/cfg/token.json";
                        EOpenWrite "token.json"] |}
           Scenario.granted "someone@x.com"
           (Py.Dict [("kind", Py.Str "calendar#events");
                     ("items", Py.List Scenario.twelve_events)]));
    reflexivity.
Defined.

(** X11: when the calendar client cannot be built, each calendar tool
    returns its error dict with the text of that failure, and no request is
    sent to the calendar service. *)
Theorem client_failure_no_request
  (w : World) (s s1 : State) (c : Credentials) (e : Py.exn) :
  get_gcal_credentials w s = (Return c, s1) ->
  build w c = Some e ->
  let s2 := {| files := files s1;
               trace := (trace s1 ++ [EBuild "calendar" "v3"])%list |} in
  (forall id,
      retrieve_calendar_events w id s
      = (Return (error_dict "events" (Py.List []) e), s2))
  /\ (forall time_min time_max timezone ids,
         retrieve_calendar_free_busy_slots w time_min time_max timezone ids s
         = (Return (error_dict "response" (Py.Dict []) e), s2))
  /\ (forall calendar_id,
         retrieve_timezone w calendar_id s
         = (Return (error_dict "response" (Py.Dict []) e), s2)).
Proof.
  intros Hc Hb s2. subst s2.
  repeat split; intros; unfold_tool; rewrite Hc, Hb; reflexivity.
Qed.

Lemma client_failure_witness :
  result_of (retrieve_timezone Cases.client_fails "primary") Scenario.valid_token_stored
  = Return (error_dict "response" (Py.Dict []) Cases.no_discovery).
Proof.
  pose proof (client_failure_no_request Cases.client_fails
                Scenario.valid_token_stored
                {| files := <["token.json" := "ya29.granted"]>
                              (files Scenario.valid_token_stored);
                   trace := [EPathExists "/cfg/token.json";
                             EReadTokenFile "/cfg/token.json";
                             EOpenWrite "token.json"] |}
                Scenario.granted Cases.no_discovery eq_refl eq_refl)
    as (_ & _ & Htz).
  unfold result_of. rewrite (Htz "primary"). reflexivity.
Defined.

(** X12: when the calendar service fails a request, the tool that sent it
    returns its error dict with the text of that failure; the credential
    that acquisition wrote stays written. *)
Theorem service_failure_error_dict
  (w : World) (s s1 : State) (c : Credentials) (e : Py.exn) :
  get_gcal_credentials w s = (Return c, s1) ->
  build w c = None ->
  (forall id,
      events_list_execute w {| calendarId := "primary";
                               timeMin := now_isoformat w +:+ "Z";
                               maxResults := 50;
                               singleEvents := true;
                               orderBy := "startTime" |} = inl e ->
      result_of (retrieve_calendar_events w id) s
      = Return (error_dict "events" (Py.List []) e)
      /\ files_of (retrieve_calendar_events w id) s
         = <["token.json" := to_json w c]> (files s))
  /\ (forall time_min time_max timezone ids,
         freebusy_query_execute w (free_busy_query time_min time_max timezone ids)
         = inl e ->
         result_of (retrieve_calendar_free_busy_slots w time_min time_max
                      timezone ids) s
         = Return (error_dict "response" (Py.Dict []) e)
         /\ files_of (retrieve_calendar_free_busy_slots w time_min time_max
                        timezone ids) s
            = <["token.json" := to_json w c]> (files s))
  /\ (forall calendar_id,
         calendars_get_execute w calendar_id = inl e ->
         result_of (retrieve_timezone w calendar_id) s
         = Return (error_dict "response" (Py.Dict []) e)
         /\ files_of (retrieve_timezone w calendar_id) s
            = <["token.json" := to_json w c]> (files s)).
Proof.
  intros Hc Hb.
  pose proof (get_gcal_credentials_writes w s s1 c Hc) as Hfiles.
  unfold result_of, files_of.
  repeat split; intros; unfold_tool; rewrite Hc, Hb; cbv beta iota zeta;
    match goal with H : _ = inl e |- _ => rewrite H end;
    try reflexivity; cbn; exact Hfiles.
Qed.

Lemma service_failure_witness :
  result_of (retrieve_calendar_events Cases.service_refuses "primary")
    Scenario.valid_token_stored
  = Return (error_dict "events" (Py.List []) Cases.forbidden).
Proof.
  pose proof (service_failure_error_dict Cases.service_refuses
                Scenario.valid_token_stored
                {| files := <["token.json" := "ya29.granted"]>
                              (files Scenario.valid_token_stored);
                   trace := [EPathExists "/cfg/token.json";
                             EReadTokenFile "/cfg/token.json";
                             EOpenWrite "token.json"] |}
                Scenario.granted Cases.forbidden eq_refl eq_refl)
    as (Hevents & _ & _).
  exact (proj1 (Hevents "primary" eq_refl)).
Defined.

(** X13: the timezone tool, unlike the events tool, asks for the calendar
    it was given: with a credential and a client at hand it sends one
    [calendars().get] for [calendar_id] and returns the answer as it came. *)
Theorem retrieve_timezone_forwards_id
  (w : World) (s s1 : State) (c : Credentials) (calendar_id : string)
  (response : Py.val) :
  get_gcal_credentials w s = (Return c, s1) ->
  build w c = None ->
  calendars_get_execute w calendar_id = inr response ->
  retrieve_timezone w calendar_id s
  = (Return (Py.Dict [("result", Py.Str "success"); ("response", response)]),
     {| files := files s1;
        trace := (trace s1 ++ [EBuild "calendar" "v3";
                               ECalendarsGet calendar_id])%list |}).
Proof.
  intros Hc Hb Hget. unfold_tool. rewrite Hc, Hb. cbv beta iota zeta.
  rewrite Hget. cbn [files trace]. rewrite <- !app_assoc. reflexivity.
Qed.

Lemma retrieve_timezone_forwards_id_witness :
  result_of (retrieve_timezone Scenario.base "team@x.com") Scenario.valid_token_stored
  = Return (Py.Dict [("result", Py.Str "success");
                     ("response", Py.Dict [("timeZone", Py.Str "UTC")])]).
Proof.
  unfold result_of.
  rewrite (retrieve_timezone_forwards_id Scenario.base Scenario.valid_token_stored
             {| files := <["token.json" := "ya29.granted"]>
                           (files Scenario.valid_token_stored);
                trace := [EPathExists "/cfg/token.json";
                          EReadTokenFile "/cfg/token.json";
                          EOpenWrite "token.json"] |}
             Scenario.granted "team@x.com"
             (Py.Dict [("timeZone", Py.Str "UTC")]) eq_refl eq_refl eq_refl).
  reflexivity.
Defined.

(** ** The directory lookup, on every path *)

(** X14: the directory lookup never raises and needs nothing but the
    endpoint: whatever the endpoint does, the call returns a value, has sent
    exactly one GET, to the search URL of the quoted name with the JSON
    accept header, and has read no credential and touched no file; the
    value does not depend on the state. *)
Theorem lookup_registry_email_one_get (w : World) (name : string) :
  exists v,
    forall s,
      lookup_registry_email w name s
      = (Return v,
         {| files := files s;
            trace := (trace s ++ [EHttpGet (registry_url name)
                                    registry_headers])%list |}).
Proof.
  unfold lookup_registry_email. cbv [try_except bind emit lift ret raise].
  cbv zeta.
  destruct (requests_get w (registry_url name) registry_headers)
    as [e | response]; [eexists; intros; reflexivity |].
  destruct (Z.eqb (status_code response) 200); [| eexists; intros; reflexivity].
  destruct (json response) as [e | data]; [eexists; intros; reflexivity |].
  destruct data as [| [] | n | f | [| ch str] | [| x l] | [| kv d]];
    cbn [Py.truthy negb py_len py_getitem0]; cbv [ret raise];
    try (eexists; intros; reflexivity).
  - destruct (Z.eqb n 0); cbn [negb]; eexists; intros; reflexivity.
  - destruct (Py.float_eq f (S754_zero false)); cbn [negb];
      eexists; intros; reflexivity.
  - destruct x; cbv [py_get ret raise]; eexists; intros; reflexivity.
Qed.

(** X15: a failure of the request, or of decoding the body of a 200
    answer, comes back as the text [Error making request: ] followed by the
    text of the exception. *)
Theorem lookup_registry_email_request_error
  (w : World) (s : State) (name : string) (e : Py.exn) :
  requests_get w (registry_url name) registry_headers = inl e
  \/ (exists response,
         requests_get w (registry_url name) registry_headers = inr response
         /\ status_code response = 200
         /\ json response = inl e) ->
  result_of (lookup_registry_email w name) s
  = Return (Py.Str ("Error making request: " +:+ Py.exc_str e)).
Proof.
  unfold result_of, lookup_registry_email.
  cbv [try_except bind emit lift ret raise]. cbv zeta.
  intros [Hget | (response & Hget & Hstatus & Hjson)]; rewrite Hget.
  - reflexivity.
  - rewrite Hstatus, Hjson. reflexivity.
Qed.

Lemma lookup_registry_email_unreachable :
  result_of (lookup_registry_email Cases.unreachable "Jane Doe") Scenario.first_run
  = Return (Py.Str ("Error making request: " +:+ Py.exc_str Cases.no_route)).
Proof.
  apply (lookup_registry_email_request_error Cases.unreachable Scenario.first_run
           "Jane Doe" Cases.no_route).
  left. reflexivity.
Defined.

(** X16: a 200 answer whose body is falsy ([null], [[]], an empty object,
    an empty string, zero, [false]) is a name that was not found. *)
Theorem lookup_registry_email_falsy_body
  (w : World) (s : State) (name : string) (response : Response) (data : Py.val) :
  requests_get w (registry_url name) registry_headers = inr response ->
  status_code response = 200 ->
  json response = inr data ->
  Py.truthy data = false ->
  result_of (lookup_registry_email w name) s
  = Return (Py.Str ("No results found for '" +:+ name +:+ "'")).
Proof.
  intros Hget Hstatus Hjson Hfalsy.
  unfold result_of, lookup_registry_email.
  cbv [try_except bind emit lift ret raise]. cbv zeta.
  rewrite Hget, Hstatus, Hjson. cbn [Z.eqb Pos.eqb]. rewrite Hfalsy. reflexivity.
Qed.

Lemma lookup_registry_email_null_body :
  result_of (lookup_registry_email Cases.answers_null "Jane Doe") Scenario.first_run
  = Return (Py.Str "No results found for 'Jane Doe'").
Proof.
  apply (lookup_registry_email_falsy_body Cases.answers_null Scenario.first_run
           "Jane Doe" {| status_code := 200; json := inr Py.None_ |} Py.None_);
    reflexivity.
Defined.

(** X17: a 200 answer that is not a list of records is reported as a
    failed request: a non-empty object gives the text of [KeyError(0)], and
    a list whose first element is no object gives the text of the
    [AttributeError] on that element. *)
Theorem lookup_registry_email_malformed_body
  (w : World) (s : State) (name : string) (response : Response) :
  requests_get w (registry_url name) registry_headers = inr response ->
  status_code response = 200 ->
  (forall kv d,
      json response = inr (Py.Dict (kv :: d)) ->
      result_of (lookup_registry_email w name) s
      = Return (Py.Str "Error making request: 0"))
  /\ (forall x rest,
         json response = inr (Py.List (x :: rest)) ->
         (forall record, x <> Py.Dict record) ->
         result_of (lookup_registry_email w name) s
         = Return (Py.Str ("Error making request: '" +:+ Py.type_name x
                           +:+ "' object has no attribute 'get'"))).
Proof.
  intros Hget Hstatus.
  unfold result_of, lookup_registry_email.
  cbv [try_except bind emit lift ret raise]. cbv zeta.
  rewrite Hget, Hstatus. split.
  - intros kv d Hjson. rewrite Hjson. reflexivity.
  - intros x rest Hjson Hx. rewrite Hjson.
    destruct x; try reflexivity. exfalso. eapply Hx. reflexivity.
Qed.

Lemma lookup_registry_email_object_body :
  result_of (lookup_registry_email Cases.answers_object "Jane Doe") Scenario.first_run
  = Return (Py.Str "Error making request: 0").
Proof.
  pose proof (lookup_registry_email_malformed_body Cases.answers_object
                Scenario.first_run "Jane Doe"
                {| status_code := 200;
                   json := inr (Py.Dict [("message", Py.Str "rate limited")]) |}
                eq_refl eq_refl) as [Hobject _].
  exact (Hobject _ _ eq_refl).
Defined.

(** ** The search URL *)

Lemma all_chars_app (p : ascii -> bool) (a b : string) :
  all_chars p (a +:+ b) = all_chars p a && all_chars p b.
Proof.
  induction a as [| c a IH]; [reflexivity |].
  change (String c a +:+ b) with (String c (a +:+ b)).
  cbn [all_chars]. rewrite IH. apply andb_assoc.
Qed.

Lemma all_chars_contains (p : ascii -> bool) (c : ascii) (s : string) :
  all_chars p s = true -> Py.contains_char c s = true -> p c = true.
Proof.
  induction s as [| c' s IH]; cbn; [discriminate |].
  intros Hall Hin. apply andb_prop in Hall as [Hc' Hs].
  apply orb_prop in Hin as [Heq | Hin]; [| auto].
  apply Ascii.eqb_eq in Heq. subst c'. exact Hc'.
Qed.

Lemma append_empty (s : string) : s +:+ "" = s.
Proof.
  induction s as [| c s IH]; [reflexivity |].
  change (String c s +:+ "") with (String c (s +:+ "")). rewrite IH. reflexivity.
Qed.

(** What [quote] writes for one byte. *)
Lemma quote_cons (c : ascii) (s : string) :
  quote (String c s) = quote (String c EmptyString) +:+ quote s.
Proof.
  cbn [quote]. rewrite append_empty. reflexivity.
Qed.

Lemma quote_byte_quoted (c : ascii) :
  all_chars quoted_char (quote (String c EmptyString)) = true.
Proof. destruct c as [[] [] [] [] [] [] [] []]; vm_compute; reflexivity. Qed.

Lemma quote_quoted (s : string) : all_chars quoted_char (quote s) = true.
Proof.
  induction s as [| c s IH]; [reflexivity |].
  rewrite quote_cons, all_chars_app, quote_byte_quoted, IH. reflexivity.
Qed.

(** X18: the name reaches the search URL as the value of [query] only.  The
    URL is the fixed endpoint followed by the quoted name, and the quoted
    name holds letters, digits, [_.-~/] and [%XX] escapes: no space and no
    character that would end or add a query parameter. *)
Theorem registry_url_query_is_quoted (name : string) :
  registry_url name
  = "https://registry.sqprod.co/api/v2/users/search?query=" +:+ quote name
  /\ all_chars quoted_char (quote name) = true
  /\ forall c, In c [" "; "&"; "="; "#"; "?"; "+"; ";"; "<"; ">"]%char ->
               Py.contains_char c (quote name) = false.
Proof.
  split; [reflexivity |]. split; [apply quote_quoted |].
  intros c Hc.
  destruct (Py.contains_char c (quote name)) eqn:Hin; [| reflexivity].
  pose proof (all_chars_contains quoted_char c (quote name)
                (quote_quoted name) Hin) as Hq.
  simpl in Hc.
  repeat destruct Hc as [<- | Hc]; try discriminate Hq. contradiction.
Qed.

Lemma unquote_byte (c : ascii) (rest : string) :
  unquote (quote (String c EmptyString) +:+ rest) = String c (unquote rest).
Proof.
  destruct c as [[] [] [] [] [] [] [] []]; reflexivity.
Qed.

(** [unquote] undoes [quote]. *)
Lemma unquote_quote (s : string) : unquote (quote s) = s.
Proof.
  induction s as [| c s IH]; [reflexivity |].
  rewrite quote_cons, unquote_byte, IH. reflexivity.
Qed.

Lemma append_cancel (p a b : string) : p +:+ a = p +:+ b -> a = b.
Proof.
  induction p as [| c p IH]; [trivial |].
  change (String c p +:+ a) with (String c (p +:+ a)).
  change (String c p +:+ b) with (String c (p +:+ b)).
  intros H. inversion H. auto.
Qed.

(** X19: two different names never give the same search URL. *)
Theorem registry_url_injective (name1 name2 : string) :
  name1 <> name2 -> registry_url name1 <> registry_url name2.
Proof.
  intros Hne Heq. apply Hne. unfold registry_url in Heq. cbv zeta in Heq.
  apply append_cancel in Heq.
  rewrite <- (unquote_quote name1), <- (unquote_quote name2), Heq.
  reflexivity.
Qed.

Lemma registry_url_injective_witness :
  registry_url "Jane Doe" <> registry_url "Jane%20Doe".
Proof.
  apply (registry_url_injective "Jane Doe" "Jane%20Doe"). discriminate.
Defined.

(** ** The timezone difference, beyond symmetry *)

(** X20: the timezone tool needs nothing but the clock and the zone
    database.  It leaves the state as it found it (no credential, no file,
    no request), and two worlds with the same clock and zones give the same
    result, whatever their environment, files and services. *)
Theorem get_timezone_difference_pure (w : World) (tz1 tz2 : string) (s : State) :
  snd (get_timezone_difference w tz1 tz2 s) = s
  /\ forall w' s',
       now w' = now w ->
       ZoneInfo w' = ZoneInfo w ->
       result_of (get_timezone_difference w' tz1 tz2) s'
       = result_of (get_timezone_difference w tz1 tz2) s.
Proof.
  unfold result_of, get_timezone_difference, utcoffset.
  cbv [try_or_return try_except bind lift ret raise].
  split.
  - destruct (ZoneInfo w tz1); cbv beta iota zeta; [reflexivity |].
    destruct (ZoneInfo w tz2); reflexivity.
  - intros w' s' Hnow Hzone. rewrite Hnow, Hzone.
    destruct (ZoneInfo w tz1); cbv beta iota zeta; [reflexivity |].
    destruct (ZoneInfo w tz2); reflexivity.
Qed.

(** X21: an unknown zone gives the error dict with the text of the lookup
    failure and a [delta] of [None]; when both zones are unknown, it is the
    failure of the first that is reported. *)
Theorem get_timezone_difference_unknown_zone
  (w : World) (s : State) (tz1 tz2 : string) (e : Py.exn) :
  ZoneInfo w tz1 = inl e
  \/ ((exists zone1, ZoneInfo w tz1 = inr zone1) /\ ZoneInfo w tz2 = inl e) ->
  get_timezone_difference w tz1 tz2 s
  = (Return (Py.Dict [("result", an_error_occurred e); ("delta", Py.None_)]), s).
Proof.
  unfold get_timezone_difference, utcoffset.
  cbv [try_or_return try_except bind lift ret raise].
  intros [H1 | [[zone1 H1] H2]]; rewrite H1; [reflexivity |].
  cbv beta iota zeta. rewrite H2. reflexivity.
Qed.

Lemma get_timezone_difference_unknown_zone_witness :
  get_timezone_difference Scenario.base "Mars/Phobos" "Mars/Deimos" Scenario.first_run
  = (Return (Py.Dict [("result",
                       Py.Str "An error occurred: 'No time zone found with key Mars/Phobos'");
                      ("delta", Py.None_)]),
     Scenario.first_run).
Proof.
  apply (get_timezone_difference_unknown_zone Scenario.base Scenario.first_run
           "Mars/Phobos" "Mars/Deimos"
           (Py.Exn "ZoneInfoNotFoundError"
                   "'No time zone found with key Mars/Phobos'")).
  left. reflexivity.
Defined.

Section FloatSign.

Lemma binary_round_aux_sign (s : bool) (m e : Z) (l : location) :
  0 <= m -> has_sign s (binary_round_aux Py.prec Py.emax s m e l).
Proof.
  intros H. pose proof (binary_round_aux_not_nan s m e l H) as Hnan.
  unfold binary_round_aux in *.
  destruct (shr_fexp Py.prec Py.emax m e l) as [mrs' e'].
  destruct (shr_fexp Py.prec Py.emax _ e' loc_Exact) as [mrs'' e''].
  destruct (shr_m mrs''); [exact eq_refl | | contradiction].
  destruct (Z.leb e'' (Py.emax - Py.prec)); exact eq_refl.
Qed.

Lemma float_of_int_sign (n : Z) :
  n <> 0 -> has_sign (Z.ltb n 0) (Py.float_of_int n).
Proof.
  intros Hn. unfold Py.float_of_int, binary_normalize, binary_round.
  destruct n as [| p | p]; [contradiction | |];
    destruct (shl_align p 0 _) as [mz ez];
    apply binary_round_aux_sign; lia.
Qed.

Lemma float_div_sign (sx sy : bool) (x : Py.float) (my : positive) (ey : Z) :
  has_sign sx x ->
  has_sign (xorb sx sy) (Py.float_div x (S754_finite sy my ey)).
Proof.
  intros Hx. pose proof (float_div_not_nan x sy my ey) as Hnan.
  unfold Py.float_div in *.
  destruct x as [s | s | | s mx ex]; simpl in Hx; try contradiction; subst s;
    simpl; try exact eq_refl.
  simpl in Hnan.
  destruct (SFdiv_core_binary Py.prec Py.emax (Z.pos mx) ex (Z.pos my) ey)
    as [[mz ez] lz].
  specialize (Hnan ltac:(discriminate)).
  unfold binary_round_aux in *.
  destruct (shr_fexp Py.prec Py.emax mz ez lz) as [mrs' e'].
  destruct (shr_fexp Py.prec Py.emax _ e' loc_Exact) as [mrs'' e''].
  destruct (shr_m mrs''); [exact eq_refl | | contradiction].
  destruct (Z.leb e'' (Py.emax - Py.prec)); exact eq_refl.
Qed.

(** The hours of a difference have the sign of the difference. *)
Lemma hours_sign (n : Z) :
  n <> 0 ->
  has_sign (Z.ltb n 0)
    (Py.float_div (total_seconds n) (Py.float_of_int 3600)).
Proof.
  intros Hn. unfold total_seconds, int_truediv.
  assert (H3600 : exists m e, Py.float_of_int 3600 = S754_finite false m e)
    by (vm_compute; eauto).
  assert (Hmega : exists m e, Py.float_of_int 1000000 = S754_finite false m e)
    by (vm_compute; eauto).
  destruct H3600 as (m1 & e1 & ->), Hmega as (m2 & e2 & ->).
  pose proof (float_div_sign _ false _ m1 e1
                (float_div_sign _ false _ m2 e2 (float_of_int_sign n Hn))) as H.
  rewrite !xorb_false_r in H. exact H.
Qed.

Lemma zero_le_positive (d : Py.float) :
  has_sign false d -> float_le (S754_zero false) d = true.
Proof. destruct d as [s | s | | s m e]; simpl; intros H; subst; tauto. Qed.

Lemma negative_le_zero (d : Py.float) :
  has_sign true d -> float_le d (S754_zero false) = true.
Proof. destruct d as [s | s | | s m e]; simpl; intros H; subst; tauto. Qed.

End FloatSign.

(** X22: the sign of [delta] follows the order of the offsets.  When the
    second zone is not behind the first, [0.0 <= delta]; when it is not
    ahead, [delta <= 0.0]. *)
Theorem timezone_difference_sign
  (w : World) (s : State) (tz1 tz2 : string) (zone1 zone2 : Instant -> Z) :
  ZoneInfo w tz1 = inr zone1 ->
  ZoneInfo w tz2 = inr zone2 ->
  exists d,
    result_of (get_timezone_difference w tz1 tz2) s
    = Return (Py.Dict [("result", Py.Str "success"); ("delta", Py.Float d)])
    /\ (zone1 (now w) <= zone2 (now w) -> float_le (Py.float_of_int 0) d = true)
    /\ (zone2 (now w) <= zone1 (now w) -> float_le d (Py.float_of_int 0) = true).
Proof.
  intros H1 H2.
  unfold result_of, get_timezone_difference, utcoffset.
  cbv [try_or_return try_except bind lift ret raise]. rewrite H1, H2.
  cbv beta iota zeta. cbn [fst].
  eexists. split; [reflexivity |].
  set (n := timedelta_sub (timedelta_seconds (zone2 (now w)))
              (timedelta_seconds (zone1 (now w)))).
  assert (Hn : n = (zone2 (now w) - zone1 (now w)) * 1000000)
    by (unfold n, timedelta_sub, timedelta_seconds; lia).
  destruct (Z.eq_dec n 0) as [-> | Hne]; [split; intros; vm_compute; reflexivity |].
  pose proof (hours_sign n Hne) as Hsign.
  split; intros Hle.
  - assert (Hlt : Z.ltb n 0 = false) by (apply Z.ltb_ge; lia).
    rewrite Hlt in Hsign. apply zero_le_positive, Hsign.
  - assert (Hlt : Z.ltb n 0 = true) by (apply Z.ltb_lt; lia).
    rewrite Hlt in Hsign. apply negative_le_zero, Hsign.
Qed.

Lemma timezone_difference_sign_witness :
  exists d,
    result_of (get_timezone_difference Scenario.base "America/New_York" "Asia/Kolkata")
      Scenario.first_run
    = Return (Py.Dict [("result", Py.Str "success"); ("delta", Py.Float d)])
    /\ (-18000 <= 19800 -> float_le (Py.float_of_int 0) d = true)
    /\ (19800 <= -18000 -> float_le d (Py.float_of_int 0) = true).
Proof.
  apply (timezone_difference_sign Scenario.base Scenario.first_run
           "America/New_York" "Asia/Kolkata" (fun _ => -18000) (fun _ => 19800));
    reflexivity.
Defined.

(** The hours of every whole number of minutes up to two days, either way,
    against the one division [m / 60]. *)
Lemma hours_of_minutes_table :
  forallb (fun i : nat =>
             let m := Z.of_nat i - 2880 in
             bool_decide
               (Py.float_div (total_seconds (60 * m * 1000000)) (Py.float_of_int 3600)
                = int_truediv m 60))
    (seq 0 (Z.to_nat 5761)) = true.
Proof. vm_compute. reflexivity. Qed.

(** X23: for zones whose offsets differ by a whole number of minutes [m]
    (up to two days either way), [delta] is exactly the float [m / 60]: the
    two divisions of the code add no rounding of their own. *)
Theorem timezone_difference_whole_minutes
  (w : World) (s : State) (tz1 tz2 : string) (zone1 zone2 : Instant -> Z) (m : Z) :
  ZoneInfo w tz1 = inr zone1 ->
  ZoneInfo w tz2 = inr zone2 ->
  zone2 (now w) - zone1 (now w) = 60 * m ->
  -2880 <= m <= 2880 ->
  result_of (get_timezone_difference w tz1 tz2) s
  = Return (Py.Dict [("result", Py.Str "success");
                     ("delta", Py.Float (int_truediv m 60))]).
Proof.
  intros H1 H2 Hm Hrange.
  unfold result_of, get_timezone_difference, utcoffset.
  cbv [try_or_return try_except bind lift ret raise]. rewrite H1, H2.
  cbv beta iota zeta. cbn [fst].
  replace (timedelta_sub (timedelta_seconds (zone2 (now w)))
             (timedelta_seconds (zone1 (now w))))
    with (60 * m * 1000000)
    by (unfold timedelta_sub, timedelta_seconds; lia).
  assert (Hin : In (Z.to_nat (m + 2880)) (seq 0 (Z.to_nat 5761)))
    by (apply in_seq; lia).
  pose proof (proj1 (forallb_forall _ _) hours_of_minutes_table _ Hin) as Htable.
  cbv beta zeta in Htable.
  replace (Z.of_nat (Z.to_nat (m + 2880)) - 2880) with m in Htable by lia.
  rewrite (bool_decide_eq_true_1 _ Htable).
  reflexivity.
Qed.

Lemma timezone_difference_whole_minutes_witness :
  result_of (get_timezone_difference Scenario.base "UTC" "Asia/Kolkata")
    Scenario.first_run
  = Return (Py.Dict [("result", Py.Str "success");
                     ("delta", Py.Float (int_truediv 330 60))]).
Proof.
  apply (timezone_difference_whole_minutes Scenario.base Scenario.first_run
           "UTC" "Asia/Kolkata" (fun _ => 0) (fun _ => 19800) 330);
    try reflexivity.
  lia.
Defined.

(** ** The first run *)

(** X24: with no token file, acquisition runs the interactive flow on the
    client-secret descriptor of the configured path, with the read-only
    calendar scope and port 0, and returns and writes to [token.json] the
    credential that the flow grants. *)
Theorem first_run_mints
  (w : World) (s : State) (token_path secrets_path secret : string)
  (flow : Flow) (c : Credentials) :
  environ w !! "GCAL_TOKEN_PATH" = Some token_path ->
  environ w !! "GCAL_CREDENTIALS_PATH" = Some secrets_path ->
  files s !! token_path = None ->
  files s !! secrets_path = Some secret ->
  from_client_config w secret ["https://www.googleapis.com/auth/calendar.readonly"]
  = inr flow ->
  run_local_server w flow = inr c ->
  open_w w "token.json" = None ->
  get_gcal_credentials w s
  = (Return c,
     {| files := <["token.json" := to_json w c]> (files s);
        trace := (trace s ++ [EPathExists token_path;
                              EReadClientSecrets secrets_path;
                              ERunLocalServer 0;
                              EOpenWrite "token.json"])%list |}).
Proof.
  intros Htp Hcp Hfile Hsecret Hflow Hrun Hopen.
  run_acquisition Htp Hcp.
  rewrite Hfile. rewrite bool_decide_eq_false_2 by (intros [? ?]; discriminate).
  cbn [files trace]. rewrite Hsecret. unfold SCOPES. rewrite Hflow.
  cbn [files trace]. rewrite Hrun. cbn [files trace]. rewrite Hopen.
  cbn [files trace]. rewrite <- !app_assoc. reflexivity.
Qed.

Lemma first_run_mints_witness :
  get_gcal_credentials Scenario.base Scenario.first_run
  = (Return Scenario.granted,
     {| files := <["token.json" := "ya29.granted"]> (files Scenario.first_run);
        trace := [EPathExists "/cfg/token.json";
                  EReadClientSecrets "/cfg/credentials.json";
                  ERunLocalServer 0;
                  EOpenWrite "token.json"] |}).
Proof.
  apply (first_run_mints Scenario.base Scenario.first_run "/cfg/token.json"
           "/cfg/credentials.json" "client-secret"
           {| client_config := "client-secret" |} Scenario.granted);
    reflexivity.
Defined.
